(** * ai-switch: the core helpers of [src/core.ts]

    A shallow embedding of the tool catalog, the installer selection, the
    pass-through splitting, the shell formatting and the configuration loader
    of [src/core.ts], followed by the properties its specification states.

    Strings are Rocq [string]s (the UTF-8 bytes of the JavaScript string).
    The characters the code inspects (the quote, the safe class, the ASCII
    letters of the catalog keys) are all ASCII, so looking at bytes or at
    UTF-16 code units gives the same answers. *)

From Stdlib Require Import String Ascii List ZArith Bool Lia.
Import ListNotations.

Local Open Scope string_scope.
Local Open Scope list_scope.

(** ** Host built-ins used by the source *)

Module JS.

(** An abrupt completion carries the [message] of the thrown [Error]. *)
Inductive Completion (A : Type) : Type :=
| Normal (a : A)
| Throw (message : string).
Arguments Normal {A} a.
Arguments Throw {A} message.

(** Runtime values, as [JSON.parse] builds them.  An object is the list of
    its own properties in insertion order; the payload of a number is never
    inspected by the code. *)
#[warnings="-register-all"]
Inductive Value : Type :=
| VUndefined
| VNull
| VBool (b : bool)
| VNumber (n : Z)
| VString (s : string)
| VArray (items : list Value)
| VObject (props : list (string * Value)).

(** [typeof v]. *)
Definition typeof (v : Value) : string :=
  match v with
  | VUndefined => "undefined"
  | VNull => "object"
  | VBool _ => "boolean"
  | VNumber _ => "number"
  | VString _ => "string"
  | VArray _ => "object"
  | VObject _ => "object"
  end.

(** [Array.isArray(v)]. *)
Definition Array_isArray (v : Value) : bool :=
  match v with VArray _ => true | _ => false end.

(** Own-property lookup; a key assigned twice holds its last value. *)
Fixpoint own (props : list (string * Value)) (k : string) : option Value :=
  match props with
  | [] => None
  | (k', v) :: rest =>
      match own rest k with
      | Some w => Some w
      | None => if String.eqb k' k then Some v else None
      end
  end.

(** [v.k] for a key that no prototype defines (the loader reads
    [defaultTool] and [defaultFlags] only): reading a property of [null] or
    [undefined] throws a [TypeError], a primitive or an array has no such
    property, an object answers with its own one. *)
Definition getProp (v : Value) (k : string) : Completion Value :=
  match v with
  | VUndefined =>
      Throw ("Cannot read properties of undefined (reading '" ++ k ++ "')")
  | VNull =>
      Throw ("Cannot read properties of null (reading '" ++ k ++ "')")
  | VObject props =>
      match own props k with Some w => Normal w | None => Normal VUndefined end
  | _ => Normal VUndefined
  end.

(** The names every plain object inherits from [Object.prototype]. *)
Definition Object_prototype : list string :=
  [ "constructor"; "hasOwnProperty"; "isPrototypeOf"; "propertyIsEnumerable";
    "toLocaleString"; "toString"; "valueOf"; "__proto__";
    "__defineGetter__"; "__defineSetter__";
    "__lookupGetter__"; "__lookupSetter__" ].

(** [k in obj] for an object literal with the own keys [keys]: the
    operator walks the prototype chain. *)
Definition has_in (k : string) (keys : list string) : bool :=
  existsb (String.eqb k) keys || existsb (String.eqb k) Object_prototype.

(** [String.prototype.toLowerCase] on the ASCII letters; other bytes are
    kept.  The keys that the result is compared with are lower-case ASCII
    words without the letter k, and no character outside ASCII lower-cases
    to one of their letters, so the comparison comes out as in the source. *)
Definition lower (c : ascii) : ascii :=
  let n := nat_of_ascii c in
  if (65 <=? n)%nat && (n <=? 90)%nat then ascii_of_nat (n + 32) else c.

Fixpoint toLowerCase (s : string) : string :=
  match s with
  | EmptyString => EmptyString
  | String c rest => String (lower c) (toLowerCase rest)
  end.

(** [s.includes(sub)]. *)
Fixpoint includes (s sub : string) : bool :=
  if String.prefix sub s then true
  else match s with
       | EmptyString => false
       | String _ rest => includes rest sub
       end.

(** [arr.includes(x)] on an array of strings. *)
Definition Array_includes (arr : list string) (x : string) : bool :=
  existsb (String.eqb x) arr.

(** [arr.indexOf(x)]: the first index holding [x], or [-1]. *)
Fixpoint indexOf_from (arr : list string) (x : string) (i : Z) : Z :=
  match arr with
  | [] => (-1)%Z
  | y :: rest => if String.eqb y x then i else indexOf_from rest x (i + 1)%Z
  end.

Definition indexOf (arr : list string) (x : string) : Z :=
  indexOf_from arr x 0%Z.

(** [arr.slice(start)]: a negative [start] counts from the end. *)
Definition slice {A : Type} (arr : list A) (start : Z) : list A :=
  let len := Z.of_nat (length arr) in
  let k := if (start <? 0)%Z then Z.max (len + start) 0 else Z.min start len in
  skipn (Z.to_nat k) arr.

(** [arr.join(sep)]. *)
Fixpoint join (sep : string) (arr : list string) : string :=
  match arr with
  | [] => ""
  | [x] => x
  | x :: rest => x ++ sep ++ join sep rest
  end.

(** [s.replace(/c/g, by)] for a one-character pattern [c] and a
    replacement text [by] without [$]. *)
Fixpoint replaceAll (c : ascii) (by_ : string) (s : string) : string :=
  match s with
  | EmptyString => EmptyString
  | String d rest =>
      if Ascii.eqb d c then by_ ++ replaceAll c by_ rest
      else String d (replaceAll c by_ rest)
  end.

(** The ambient environment of the process. *)
Record Host : Type := {
  process_platform : string;
  process_env : list (string * string);
  fs_existsSync : string -> bool;
  fs_readFileSync : string -> Completion string;
  path_join : string -> string -> string;
  JSON_parse : string -> Completion Value
}.

(** [os.platform()] reports [process.platform]. *)
Definition os_platform (h : Host) : string := process_platform h.

End JS.
Import JS.

(** ** The catalog *)

Definition CONFIG_FILENAME : string := ".ai-switch.json".

Record Installer : Type := {
  label : string;
  cmd : string;
  platforms : option (list string)
}.

Record ToolDefinition : Type := {
  bin : string;
  pretty : string;
  installers : list Installer;
  yoloFlags : option (list string)
}.

Definition TOOLS : list (string * ToolDefinition) :=
  [ ("codex",
     {| bin := "codex";
        pretty := "OpenAI Codex CLI";
        installers :=
          [ {| label := "npm"; cmd := "npm install -g @openai/codex";
               platforms := None |};
            {| label := "brew"; cmd := "brew install codex";
               platforms := Some ["darwin"] |} ];
        yoloFlags :=
          Some ["--yolo"; "--dangerously-bypass-approvals-and-sandbox"] |});
    ("claude",
     {| bin := "claude";
        pretty := "Anthropic Claude Code";
        installers :=
          [ {| label := "npm"; cmd := "npm install -g @anthropic-ai/claude-code";
               platforms := None |};
            {| label := "brew"; cmd := "brew install --cask claude-code";
               platforms := Some ["darwin"] |} ];
        yoloFlags := Some ["--dangerously-skip-permissions"] |});
    ("gemini",
     {| bin := "gemini";
        pretty := "Google Gemini CLI";
        installers :=
          [ {| label := "npm"; cmd := "npm install -g @google/gemini-cli";
               platforms := None |};
            {| label := "brew"; cmd := "brew install gemini-cli";
               platforms := Some ["darwin"] |} ];
        yoloFlags := Some ["--yolomode"; "--yolo"] |}) ].

(** [Object.keys(TOOLS)]: the canonical catalog keys. *)
Definition TOOL_KEYS : list string := map fst TOOLS.

(** An argument of type [string | null | undefined]. *)
Inductive MaybeString : Type :=
| Absent
| Null
| Str (s : string).

(** JavaScript truthiness of such an argument: only a non-empty string is
    truthy. *)
Definition truthy (v : MaybeString) : bool :=
  match v with
  | Str s => negb (String.eqb s "")
  | _ => false
  end.

Definition normalizeToolKey (value : MaybeString) : option string :=
  match value with
  | Str s =>
      if negb (truthy value) then None
      else
        let key := toLowerCase s in
        if has_in key TOOL_KEYS then Some key else None
  | _ => None
  end.

Definition hasTool (key : string) : bool :=
  match normalizeToolKey (Str key) with Some _ => true | None => false end.

(** ** Installer selection *)

Record Choice : Type := {
  name : string;
  value : string
}.

Definition CANCEL_CHOICE : Choice := {| name := "Cancel"; value := "" |}.

(** [isWSL()] asks the process for its platform, its environment and
    [/proc/version]; a failed read counts as "not WSL". *)
Definition isWSL (h : Host) : bool :=
  if negb (String.eqb (process_platform h) "linux") then false
  else if existsb (String.eqb "WSL_DISTRO_NAME") (map fst (process_env h))
       then true
  else match fs_readFileSync h "/proc/version" with
       | Normal release => includes (toLowerCase release) "microsoft"
       | Throw _ => false
       end.

(** A parameter declared as [platform = os.platform()]. *)
Definition orPlatform (h : Host) (platform : option string) : string :=
  match platform with
  | Some p => p
  | None => os_platform h
  end.

Definition isInstallerSupported
  (h : Host) (installer : Installer) (platform : option string) : bool :=
  let platform := orPlatform h platform in
  match platforms installer with
  | None => true
  | Some ps =>
      if (length ps =? 0)%nat then true
      else
        let wsl := isWSL h in
        if wsl then Array_includes ps "wsl" || Array_includes ps "linux"
        else Array_includes ps platform
  end.

Definition getInstallerChoices
  (h : Host) (tool : ToolDefinition) (platform : option string) : list Choice :=
  let platform := orPlatform h platform in
  let choices :=
    map (fun installer =>
           {| name := label installer ++ ": " ++ cmd installer;
              value := cmd installer |})
        (filter (fun installer => isInstallerSupported h installer (Some platform))
                (installers tool)) in
  choices ++ [CANCEL_CHOICE].

Definition selectYoloFlag (tool : ToolDefinition) : option string :=
  match (match yoloFlags tool with Some fs => fs | None => [] end) with
  | first :: _ => Some first
  | [] => None
  end.

(** ** Pass-through arguments *)

Definition passthroughArgs (argv : list string) : list string :=
  let idx := indexOf argv "--" in
  if (0 <=? idx)%Z then slice argv (idx + 1)%Z else [].

(** ** Shell formatting *)

(** The class [[A-Za-z0-9._@%+=:,/-]]. *)
Definition safe_char (c : ascii) : bool :=
  let n := nat_of_ascii c in
  ((65 <=? n) && (n <=? 90))%nat
  || ((97 <=? n) && (n <=? 122))%nat
  || ((48 <=? n) && (n <=? 57))%nat
  || existsb (Ascii.eqb c)
       [ "."%char; "_"%char; "@"%char; "%"%char; "+"%char; "="%char;
         ":"%char; ","%char; "/"%char; "-"%char ].

Fixpoint every_char (p : ascii -> bool) (s : string) : bool :=
  match s with
  | EmptyString => true
  | String c rest => p c && every_char p rest
  end.

(** [SAFE_CHARS.test(arg)] for [/^[A-Za-z0-9._@%+=:,\/-]+$/]: one or more
    characters, all of the class. *)
Definition SAFE_CHARS_test (arg : string) : bool :=
  negb (String.eqb arg "") && every_char safe_char arg.

(** The source writes the replacement text as the double-quoted literal
    ["'\''"].  Inside a double-quoted literal the escape sequence
    backslash-quote denotes the quote character alone, so the text that
    [replace] receives is made of three quote characters. *)
Definition quoteArg (arg : string) : string :=
  if String.eqb arg "" then "''"
  else if SAFE_CHARS_test arg then arg
  else "'" ++ replaceAll "'"%char "'''" arg ++ "'".

Definition formatShellCommand (command : string) (args : list string) : string :=
  join " " (map quoteArg (command :: args)).

(** ** The configuration loader *)

Record AiSwitchConfig : Type := {
  defaultTool : option string;
  defaultFlags : option (list Value)
}.

(** The object literal [{}]: no key at all. *)
Definition emptyConfig : AiSwitchConfig :=
  {| defaultTool := None; defaultFlags := None |}.

Definition ensureStringArray (v : Value) : option (list Value) :=
  match v with
  | VArray items =>
      if forallb (fun item => String.eqb (typeof item) "string") items
      then Some items
      else None
  | _ => None
  end.

(** The string held by a value whose [typeof] is ["string"]. *)
Definition stringOf (v : Value) : MaybeString :=
  match v with
  | VString s => Str s
  | VNull => Null
  | _ => Absent
  end.

(** [v ?? undefined]. *)
Definition orUndefined (v : MaybeString) : MaybeString :=
  match v with
  | Null => Absent
  | _ => v
  end.

(** The text a template literal prints for a truthy [maybeTool]. *)
Definition textOf (v : MaybeString) : string :=
  match v with
  | Str s => s
  | Null => "null"
  | Absent => "undefined"
  end.

Section Effects.

(** The loader's only effect is to hand warnings to the logger.  [World] is
    whatever the logger writes to.  [LoggerLike] is a logger whose [warn]
    returns normally; the loader for a logger whose [warn] may throw is
    [Raising.loadConfig] below. *)
Context {World : Type}.

Record LoggerLike : Type := {
  warn : string -> World -> World
}.

(** A computation that may throw and may log. *)
Definition M (A : Type) : Type := World -> Completion A * World.

Definition ret {A : Type} (a : A) : M A := fun w => (Normal a, w).

Definition bind {A B : Type} (m : M A) (k : A -> M B) : M B :=
  fun w =>
    match m w with
    | (Normal a, w') => k a w'
    | (Throw e, w') => (Throw e, w')
    end.

(** A built-in that may throw. *)
Definition lift {A : Type} (c : Completion A) : M A := fun w => (c, w).

(** [try { body } catch (error) { handler(error.message) }]. *)
Definition tryCatch {A : Type} (body : M A) (handler : string -> M A) : M A :=
  fun w =>
    match body w with
    | (Normal a, w') => (Normal a, w')
    | (Throw e, w') => handler e w'
    end.

(** The world after [logger?.warn(message)]: untouched without a logger. *)
Definition notify (logger : option LoggerLike) (message : string) (w : World)
  : World :=
  match logger with
  | Some l => warn l message w
  | None => w
  end.

(** [logger?.warn(message)]. *)
Definition warn_opt (logger : option LoggerLike) (message : string) : M unit :=
  fun w => (Normal tt, notify logger message w).

End Effects.

Arguments LoggerLike World : clear implicits.
Arguments M World A : clear implicits.

Notation "x <- m ;; k" := (bind m (fun x => k))
  (at level 61, m at next level, right associativity).
Notation "m ;;; k" := (bind m (fun _ => k))
  (at level 61, right associativity).

Definition loadConfig {World : Type}
  (h : Host) (cwd : string) (logger : option (LoggerLike World))
  : M World AiSwitchConfig :=
  let configPath := path_join h cwd CONFIG_FILENAME in
  if negb (fs_existsSync h configPath) then ret emptyConfig
  else
    tryCatch
      (raw <- lift (fs_readFileSync h configPath) ;;
       parsed <- lift (JSON_parse h raw) ;;
       let result := emptyConfig in
       parsed_defaultTool <- lift (getProp parsed "defaultTool") ;;
       let maybeTool :=
         if String.eqb (typeof parsed_defaultTool) "string"
         then stringOf parsed_defaultTool
         else Absent in
       let normalizedTool := normalizeToolKey (orUndefined maybeTool) in
       result <-
         match normalizedTool with
         | Some key =>
             if negb (String.eqb key "")
             then ret {| defaultTool := Some key;
                         defaultFlags := defaultFlags result |}
             else if truthy maybeTool
             then warn_opt logger
                    ("Ignoring unknown defaultTool: " ++ textOf maybeTool) ;;;
                  ret result
             else ret result
         | None =>
             if truthy maybeTool
             then warn_opt logger
                    ("Ignoring unknown defaultTool: " ++ textOf maybeTool) ;;;
                  ret result
             else ret result
         end ;;
       parsed_defaultFlags <- lift (getProp parsed "defaultFlags") ;;
       let flags := ensureStringArray parsed_defaultFlags in
       result <-
         match flags with
         | Some fs =>
             ret {| defaultTool := defaultTool result; defaultFlags := Some fs |}
         | None =>
             match parsed_defaultFlags with
             | VUndefined => ret result
             | _ =>
                 warn_opt logger
                   "Ignoring defaultFlags because it is not an array of strings." ;;;
                 ret result
             end
         end ;;
       ret result)
      (fun message =>
         warn_opt logger
           ("Failed to load " ++ CONFIG_FILENAME ++ ": " ++ message) ;;;
         ret emptyConfig).

(** ** Loggers that may throw *)

(** [LoggerLike] above is a logger whose [warn] returns.  The interface
    [warn(message: string): void] also admits a logger whose [warn] throws;
    [Raising] is the loader for such a logger.  A throw of a warning inside
    the [try] goes to the [catch], and a throw of the warning in the [catch]
    reaches the caller. *)
Module Raising.

Section Effects.

Context {World : Type}.

Record LoggerLike : Type := {
  warn : string -> World -> Completion unit * World
}.

(** [logger?.warn(message)]. *)
Definition warn_opt (logger : option LoggerLike) (message : string)
  : M World unit :=
  fun w =>
    match logger with
    | Some l => warn l message w
    | None => (Normal tt, w)
    end.

(** A logger whose [warn] returns normally, whatever the message and the
    state; so does the absent logger. *)
Definition returns (logger : option LoggerLike) : Prop :=
  match logger with
  | Some l => forall message w, fst (warn l message w) = Normal tt
  | None => True
  end.

(** The logger's world after a sequence of warnings. *)
Definition deliverAll (logger : option LoggerLike) (messages : list string)
  (w : World) : World :=
  fold_left (fun w' message => snd (warn_opt logger message w')) messages w.

End Effects.

Arguments LoggerLike World : clear implicits.

Definition loadConfig {World : Type}
  (h : Host) (cwd : string) (logger : option (LoggerLike World))
  : M World AiSwitchConfig :=
  let configPath := path_join h cwd CONFIG_FILENAME in
  if negb (fs_existsSync h configPath) then ret emptyConfig
  else
    tryCatch
      (raw <- lift (fs_readFileSync h configPath) ;;
       parsed <- lift (JSON_parse h raw) ;;
       let result := emptyConfig in
       parsed_defaultTool <- lift (getProp parsed "defaultTool") ;;
       let maybeTool :=
         if String.eqb (typeof parsed_defaultTool) "string"
         then stringOf parsed_defaultTool
         else Absent in
       let normalizedTool := normalizeToolKey (orUndefined maybeTool) in
       result <-
         match normalizedTool with
         | Some key =>
             if negb (String.eqb key "")
             then ret {| defaultTool := Some key;
                         defaultFlags := defaultFlags result |}
             else if truthy maybeTool
             then warn_opt logger
                    ("Ignoring unknown defaultTool: " ++ textOf maybeTool) ;;;
                  ret result
             else ret result
         | None =>
             if truthy maybeTool
             then warn_opt logger
                    ("Ignoring unknown defaultTool: " ++ textOf maybeTool) ;;;
                  ret result
             else ret result
         end ;;
       parsed_defaultFlags <- lift (getProp parsed "defaultFlags") ;;
       let flags := ensureStringArray parsed_defaultFlags in
       result <-
         match flags with
         | Some fs =>
             ret {| defaultTool := defaultTool result; defaultFlags := Some fs |}
         | None =>
             match parsed_defaultFlags with
             | VUndefined => ret result
             | _ =>
                 warn_opt logger
                   "Ignoring defaultFlags because it is not an array of strings." ;;;
                 ret result
             end
         end ;;
       ret result)
      (fun message =>
         warn_opt logger
           ("Failed to load " ++ CONFIG_FILENAME ++ ": " ++ message) ;;;
         ret emptyConfig).

End Raising.

(** A logger that returns, seen as the sink it is. *)
Definition sinkOf {World : Type} (l : Raising.LoggerLike World)
  : LoggerLike World :=
  {| warn := fun message w => snd (Raising.warn l message w) |}.

(** ** The command line of [src/index.ts] *)

(** [TOOLS[key]] for a key of the declared type [ToolKey].  For any other
    string the source gets a value that is no tool definition ([undefined],
    or an inherited member of the catalog object); that value is not
    modelled and reads as [None]. *)
Definition getToolDefinition (key : string) : option ToolDefinition :=
  match find (fun entry => String.eqb (fst entry) key) TOOLS with
  | Some entry => Some (snd entry)
  | None => None
  end.

Module Cli.

(** The [chalk] styles the entry point uses. *)
Inductive Style : Type := BoldRed | Yellow | CyanBright | Red.

(** What a run does to the outside world, in order.  [ExecaCommand] is the
    call [execaCommand(command, { stdio: "inherit", shell: true })], [Execa]
    the call [execa(file, args, { stdio: "inherit", shell, reject: false })]. *)
Inductive Event : Type :=
| ConsoleLog (style : Style) (text : string)
| ConsoleError (style : Style) (text : string)
| ConsoleWarn (text : string)
| PromptInstall (message : string) (choices : list Choice)
| PromptPick (message : string) (choices : list string)
| SpinnerStart (text : string)
| SpinnerSucceed (text : string)
| SpinnerFail (text : string)
| ExecaCommand (command : string)
| Execa (file : string) (args : list string) (shell : bool).

(** The process and its collaborators: what [which], the prompts and the
    spawned programs answer. *)
Record Process : Type := {
  host : Host;
  process_cwd : string;
  process_argv : list string;
  which : string -> Completion string;
  answerInstall : string -> list Choice -> string;
  answerPick : string -> list string -> string;
  execaCommand : string -> Completion unit;
  execa : string -> list string -> bool -> Completion (option Z)
}.

(** How a run ends: it returns, the process exits, an error is thrown, or
    the run reaches a tool key outside the catalog, where the model stops. *)
Inductive Outcome (A : Type) : Type :=
| Done (a : A)
| Exit (code : Z)
| Raise (message : string)
| OffCatalog.
Arguments Done {A} a.
Arguments Exit {A} code.
Arguments Raise {A} message.
Arguments OffCatalog {A}.

Definition Run (A : Type) : Type := (Outcome A * list Event)%type.

Definition ret {A : Type} (a : A) : Run A := (Done a, []).

Definition bind {A B : Type} (m : Run A) (k : A -> Run B) : Run B :=
  match m with
  | (Done a, events) => let (o, more) := k a in (o, events ++ more)
  | (Exit code, events) => (Exit code, events)
  | (Raise message, events) => (Raise message, events)
  | (OffCatalog, events) => (OffCatalog, events)
  end.

Definition emit (e : Event) : Run unit := (Done tt, [e]).

(** [process.exit(code)]. *)
Definition exit {A : Type} (code : Z) : Run A := (Exit code, []).

Notation "x <~ m ;; k" := (bind m (fun x => k))
  (at level 61, m at next level, right associativity).
Notation "m ;;> k" := (bind m (fun _ => k))
  (at level 61, right associativity).

(** Truthiness of a value of type [string | undefined]. *)
Definition truthyKey (k : option string) : bool :=
  match k with
  | Some s => negb (String.eqb s "")
  | None => false
  end.

(** The flags of a configuration as its declared type [string[]] sees
    them. *)
Definition stringsOf (items : list Value) : list string :=
  flat_map (fun item => match item with VString s => [s] | _ => [] end) items.

(** [console], used as the loader's logger. *)
Definition console : LoggerLike (list Event) :=
  {| warn := fun message events => events ++ [ConsoleWarn message] |}.

(** [loadConfig(process.cwd(), console)]. *)
Definition loadProjectConfig (p : Process) : Run AiSwitchConfig :=
  match loadConfig (host p) (process_cwd p) (Some console) [] with
  | (Normal config, events) => (Done config, events)
  | (Throw message, events) => (Raise message, events)
  end.

Definition isInstalled (p : Process) (bin : string) : bool :=
  match which p bin with
  | Normal _ => true
  | Throw _ => false
  end.

Definition ensureInstalled (p : Process) (toolKey : string) (dryRun : bool)
  : Run bool :=
  match getToolDefinition toolKey with
  | None => (OffCatalog, [])
  | Some tool =>
      if isInstalled p (bin tool) then ret true
      else if dryRun then
        emit (ConsoleLog Yellow
                ("[dry-run] " ++ pretty tool
                   ++ " is not installed. Would prompt to install.")) ;;>
        ret true
      else
        let choices := getInstallerChoices (host p) tool None in
        let message := (pretty tool ++ " is not installed. Install now?")%string in
        emit (PromptInstall message choices) ;;>
        let install := answerInstall p message choices in
        if String.eqb install "" then
          emit (ConsoleLog Yellow
                  "Cancelled. Install the tool manually and rerun the command.") ;;>
          ret false
        else
          emit (ConsoleLog CyanBright ("> " ++ install)) ;;>
          emit (SpinnerStart ("Installing " ++ pretty tool ++ "…")) ;;>
          emit (ExecaCommand install) ;;>
          match execaCommand p install with
          | Normal _ =>
              emit (SpinnerSucceed (pretty tool ++ " installed.")) ;;>
              ret true
          | Throw message =>
              emit (SpinnerFail ("Install failed. Run manually: " ++ install)) ;;>
              emit (ConsoleError Red message) ;;>
              ret false
          end
  end.

Record LaunchOptions : Type := {
  dryRun : bool;
  yolo : bool;
  config : AiSwitchConfig;
  argv : list string
}.

(** [config.defaultFlags ?? []]. *)
Definition flagsOrEmpty (config : AiSwitchConfig) : list string :=
  match defaultFlags config with
  | Some fs => stringsOf fs
  | None => []
  end.

Definition launch (p : Process) (toolKey : string) (options : LaunchOptions)
  : Run unit :=
  match getToolDefinition toolKey with
  | None => (OffCatalog, [])
  | Some tool =>
      let passthrough := passthroughArgs (argv options) in
      let defaultFlags := flagsOrEmpty (config options) in
      let yoloFlag := if yolo options then selectYoloFlag tool else None in
      (if yolo options then
         emit (ConsoleLog BoldRed
                 "YOLO mode bypasses approvals and sandboxing. Proceed with caution.") ;;>
         if negb (truthyKey yoloFlag) then
           emit (ConsoleLog Yellow
                   (pretty tool
                      ++ " does not expose a documented YOLO/skip-permissions flag. Launching without extras."))
         else ret tt
       else ret tt) ;;>
      let args :=
        (if truthyKey yoloFlag
         then match yoloFlag with Some flag => [flag] | None => [] end
         else [])
          ++ defaultFlags ++ passthrough in
      let commandString := formatShellCommand (bin tool) args in
      emit (ConsoleLog CyanBright ("> " ++ commandString)) ;;>
      if dryRun options then ret tt
      else
        let shell := String.eqb (os_platform (host p)) "win32" in
        emit (Execa (bin tool) args shell) ;;>
        match execa p (bin tool) args shell with
        | Normal result =>
            exit (match result with Some code => code | None => 0%Z end)
        | Throw message =>
            emit (ConsoleError Red
                    ("Failed to launch " ++ pretty tool ++ ": " ++ message)) ;;>
            exit 1%Z
        end
  end.

Definition resolveToolFromInput (toolArg : MaybeString) (config : AiSwitchConfig)
  : Run (option string) :=
  if truthy toolArg then
    let normalized := normalizeToolKey toolArg in
    if negb (truthyKey normalized) then
      emit (ConsoleError Red ("Unknown tool: " ++ textOf toolArg)) ;;>
      exit 1%Z
    else ret normalized
  else if truthyKey (defaultTool config) then ret (defaultTool config)
  else ret None.

Definition requireToolKey (tool : option string) : Run string :=
  match tool with
  | Some key =>
      if negb (truthyKey tool) then (Raise "Tool key is required", [])
      else ret key
  | None => (Raise "Tool key is required", [])
  end.

Definition runUseCommand (p : Process) (toolInput : MaybeString) (dryRun : bool)
  : Run unit :=
  config <~ loadProjectConfig p ;;
  resolved <~ resolveToolFromInput toolInput config ;;
  toolKey <~
    (let pick :=
       emit (PromptPick "Pick a tool to launch:" TOOL_KEYS) ;;>
       let picked := answerPick p "Pick a tool to launch:" TOOL_KEYS in
       requireToolKey (normalizeToolKey (Str picked)) in
     match resolved with
     | Some key => if negb (truthyKey resolved) then pick else ret key
     | None => pick
     end) ;;
  ready <~ ensureInstalled p toolKey dryRun ;;
  if negb ready then
    if negb dryRun then exit 1%Z else ret tt
  else
    launch p toolKey
      {| dryRun := dryRun; yolo := false; config := config;
         argv := process_argv p |}.

Definition runYoloCommand (p : Process) (toolInput : string) (dryRun : bool)
  : Run unit :=
  config <~ loadProjectConfig p ;;
  toolKey <~ requireToolKey (normalizeToolKey (Str toolInput)) ;;
  ready <~ ensureInstalled p toolKey dryRun ;;
  if negb ready then
    if negb dryRun then exit 1%Z else ret tt
  else
    launch p toolKey
      {| dryRun := dryRun; yolo := true; config := config;
         argv := process_argv p |}.

(** The events that start a program. *)
Definition spawns (e : Event) : bool :=
  match e with
  | ExecaCommand _ => true
  | Execa _ _ _ => true
  | _ => false
  end.

(** The events that ask the user. *)
Definition prompts (e : Event) : bool :=
  match e with
  | PromptInstall _ _ => true
  | PromptPick _ _ => true
  | _ => false
  end.

(** A trace that starts no program. *)
Definition quiet (events : list Event) : Prop :=
  forallb (fun e => negb (spawns e)) events = true.

(** A trace that asks nothing. *)
Definition silent (events : list Event) : Prop :=
  forallb (fun e => negb (prompts e)) events = true.

End Cli.

(** ** The specification's vocabulary *)

(** "A platform set that is absent, empty, or contains the platform". *)
Definition applicable (platform : string) (installer : Installer) : Prop :=
  match platforms installer with
  | None => True
  | Some ps => ps = [] \/ In platform ps
  end.

Definition applicableb (platform : string) (installer : Installer) : bool :=
  match platforms installer with
  | None => true
  | Some [] => true
  | Some ps => Array_includes ps platform
  end.

(** The display entry of an installer: ["<label>: <command>"] paired with the
    raw command. *)
Definition choiceOf (installer : Installer) : Choice :=
  {| name := label installer ++ ": " ++ cmd installer; value := cmd installer |}.

(** "An ordered sequence where every element is a string". *)
Definition isString (v : Value) : Prop := exists s, v = VString s.

Definition StringArray (v : Value) : Prop :=
  exists items, v = VArray items /\ Forall isString items.

(** The quoting the specification describes: every quote character becomes
    the four characters quote, backslash, quote, quote. *)
Definition quoteArg_posix (arg : string) : string :=
  if String.eqb arg "" then "''"
  else if SAFE_CHARS_test arg then arg
  else "'" ++ replaceAll "'"%char "'\''" arg ++ "'".

Definition formatShellCommand_posix (command : string) (args : list string)
  : string :=
  join " " (map quoteArg_posix (command :: args)).

(** ** Fixtures for concrete runs *)

(** A host with the given platform, environment and files; [JSON.parse]
    knows the listed texts and rejects every other one. *)
Definition mkHost
  (platform : string) (env : list (string * string))
  (files : list (string * string)) (documents : list (string * Value)) : Host :=
  {| process_platform := platform;
     process_env := env;
     fs_existsSync := fun p => existsb (fun f => String.eqb (fst f) p) files;
     fs_readFileSync := fun p =>
       match find (fun f => String.eqb (fst f) p) files with
       | Some f => Normal (snd f)
       | None => Throw ("ENOENT: no such file or directory, open '" ++ p ++ "'")
       end;
     path_join := fun dir file => (dir ++ "/" ++ file)%string;
     JSON_parse := fun raw =>
       match find (fun d => String.eqb (fst d) raw) documents with
       | Some d => Normal (snd d)
       | None => Throw "Expected property name or '}' in JSON at position 1"
       end |}.

(** JSON text of a string without special characters. *)
Definition quoted (s : string) : string :=
  (String (ascii_of_nat 34) s ++ String (ascii_of_nat 34) "")%string.

(** A project directory [/proj] whose configuration file holds [raw], read
    as [doc]. *)
Definition projectWith (raw : string) (doc : Value) : Host :=
  mkHost "darwin" [] [("/proj/.ai-switch.json", raw)] [(raw, doc)].

(** The logger of the test suite: it records the messages it is given. *)
Definition recorder : LoggerLike (list string) :=
  {| warn := fun message calls => calls ++ [message] |}.

Definition codex : ToolDefinition :=
  {| bin := "codex";
     pretty := "OpenAI Codex CLI";
     installers :=
       [ {| label := "npm"; cmd := "npm install -g @openai/codex";
            platforms := None |};
         {| label := "brew"; cmd := "brew install codex";
            platforms := Some ["darwin"] |} ];
     yoloFlags :=
       Some ["--yolo"; "--dangerously-bypass-approvals-and-sandbox"] |}.

(** A tool with one recipe for every platform and one for WSL alone. *)
Definition wslTool : ToolDefinition :=
  {| bin := "example";
     pretty := "Example CLI";
     installers :=
       [ {| label := "npm"; cmd := "npm install -g example";
            platforms := Some [] |};
         {| label := "apt"; cmd := "sudo apt install example";
            platforms := Some ["wsl"] |} ];
     yoloFlags := Some [] |}.

(** A Linux machine, and the same machine as seen from inside WSL. *)
Definition linuxHost : Host :=
  mkHost "linux" [("HOME", "/home/dev")]
         [("/proc/version", "Linux version 6.8.0 (gcc 13.2.0)")] [].

Definition wslHost : Host :=
  mkHost "linux" [("HOME", "/home/dev"); ("WSL_DISTRO_NAME", "Ubuntu")]
         [("/proc/version", "Linux version 5.15.0-microsoft-standard-WSL2")] [].

Definition macHost : Host := mkHost "darwin" [] [] [].

Definition winHost : Host :=
  mkHost "win32" [("WSL_DISTRO_NAME", "Ubuntu")] [] [].

(** Project directories of the loader's test cases. *)
Definition emptyProject : Host := mkHost "darwin" [] [] [].

Definition invalidJsonProject : Host :=
  mkHost "darwin" [] [("/proj/.ai-switch.json", "{invalid json")] [].

Definition constructorProject : Host :=
  projectWith ("{" ++ quoted "defaultTool" ++ ":" ++ quoted "constructor" ++ "}")
              (VObject [("defaultTool", VString "constructor")]).

Definition emptyToolProject : Host :=
  projectWith ("{" ++ quoted "defaultTool" ++ ":" ++ quoted "" ++ "}")
              (VObject [("defaultTool", VString "")]).

Definition cursorProject : Host :=
  projectWith
    ("{" ++ quoted "defaultTool" ++ ":" ++ quoted "cursor" ++ ","
         ++ quoted "defaultFlags" ++ ":[" ++ quoted "--model" ++ ","
         ++ quoted "claude-3" ++ "]}")
    (VObject [("defaultTool", VString "cursor");
              ("defaultFlags", VArray [VString "--model"; VString "claude-3"])]).

Definition numericToolProject : Host :=
  projectWith
    ("{" ++ quoted "defaultTool" ++ ":42,"
         ++ quoted "defaultFlags" ++ ":[" ++ quoted "--model" ++ ",123]}")
    (VObject [("defaultTool", VNumber 42);
              ("defaultFlags", VArray [VString "--model"; VNumber 123])]).

(** ** Vocabulary of the further properties *)

(** The characters a POSIX shell treats specially in a word: blanks, the
    operators, the quoting characters, the expansion and pattern
    characters. *)
Definition shell_special (c : ascii) : bool :=
  existsb (Ascii.eqb c)
    [ " "%char; ascii_of_nat 9; ascii_of_nat 10;
      "|"%char; "&"%char; ";"%char; "<"%char; ">"%char; "("%char; ")"%char;
      "$"%char; "`"%char; "\"%char; ascii_of_nat 34; "'"%char;
      "*"%char; "?"%char; "["%char; "]"%char; "#"%char; "~"%char;
      "!"%char; "{"%char; "}"%char ].

(** A text with its quote characters taken out. *)
Definition withoutQuotes (s : string) : string := replaceAll "'"%char "" s.

(** The logger's world after a sequence of warnings. *)
Definition notifyAll {World : Type}
  (logger : option (LoggerLike World)) (messages : list string) (w : World)
  : World :=
  fold_left (fun w' message => notify logger message w') messages w.

(** The project of [cursorProject] with one more key in its document. *)
Definition extraKeyProject : Host :=
  projectWith
    ("{" ++ quoted "defaultTool" ++ ":" ++ quoted "cursor" ++ ","
         ++ quoted "editor" ++ ":" ++ quoted "vim" ++ ","
         ++ quoted "defaultFlags" ++ ":[" ++ quoted "--model" ++ ","
         ++ quoted "claude-3" ++ "]}")
    (VObject [("defaultTool", VString "cursor");
              ("editor", VString "vim");
              ("defaultFlags", VArray [VString "--model"; VString "claude-3"])]).

(** The project of the test "loads and normalizes valid defaults". *)
Definition claudeProject : Host :=
  projectWith
    ("{" ++ quoted "defaultTool" ++ ":" ++ quoted "CLAUDE" ++ ","
         ++ quoted "defaultFlags" ++ ":[" ++ quoted "--model" ++ ","
         ++ quoted "claude-3" ++ "]}")
    (VObject [("defaultTool", VString "CLAUDE");
              ("defaultFlags", VArray [VString "--model"; VString "claude-3"])]).

(** A process for concrete runs of the command line: every tool is
    installed or none is, both prompts get the same answer, and the spawned
    programs succeed. *)
Definition demoProcess
  (h : Host) (args : list string) (installed : bool) (answer : string)
  : Cli.Process :=
  {| Cli.host := h;
     Cli.process_cwd := "/proj";
     Cli.process_argv := args;
     Cli.which := fun bin =>
       if installed then Normal ("/usr/local/bin/" ++ bin)%string
       else Throw ("not found: " ++ bin);
     Cli.answerInstall := fun _ _ => answer;
     Cli.answerPick := fun _ _ => answer;
     Cli.execaCommand := fun _ => Normal tt;
     Cli.execa := fun _ _ _ => Normal (Some 0%Z) |}.

(** Launch options of concrete runs: the flags of a configuration and the
    command line [ai use codex -- --version]. *)
Definition demoOptions (dry withYolo : bool) : Cli.LaunchOptions :=
  {| Cli.dryRun := dry;
     Cli.yolo := withYolo;
     Cli.config :=
       {| defaultTool := None;
          defaultFlags := Some [VString "--model"; VString "gpt-5-codex"] |};
     Cli.argv := ["node"; "ai"; "use"; "codex"; "--"; "--version"] |}.

(** Two loggers that record what they are given: one returns, the other
    throws after recording. *)
Definition recordingLogger : Raising.LoggerLike (list string) :=
  {| Raising.warn := fun message calls => (Normal tt, calls ++ [message]) |}.

Definition throwingLogger : Raising.LoggerLike (list string) :=
  {| Raising.warn := fun message calls =>
       (Throw "logger down", calls ++ [message]) |}.

(** A logger that counts its calls. *)
Definition countingLogger : Raising.LoggerLike nat :=
  {| Raising.warn := fun _ calls => (Normal tt, S calls) |}.

(** * Properties *)

(** ** Strings *)

Lemma prefix_app (p r : string) : String.prefix p (p ++ r) = true.
Proof.
  induction p as [|c p IH]; simpl.
  - destruct r; reflexivity.
  - destruct (ascii_dec c c) as [_|n]; [exact IH | now destruct n].
Qed.

Lemma includes_prefix (p r : string) : includes (p ++ r) p = true.
Proof.
  destruct p as [|c p]; simpl.
  - destruct r; reflexivity.
  - destruct (ascii_dec c c) as [_|n]; [| now destruct n].
    now rewrite prefix_app.
Qed.

Lemma includes_self (e : string) : includes e e = true.
Proof.
  rewrite <- (includes_prefix e "") at 1.
  replace (e ++ "")%string with e; [reflexivity |].
  induction e; simpl; congruence.
Qed.

Lemma includes_suffix (p e : string) : includes (p ++ e) e = true.
Proof.
  induction p as [|c p IH]; simpl.
  - apply includes_self.
  - change (includes (String c (p ++ e)) e)
      with (if String.prefix e (String c (p ++ e)) then true
            else includes (p ++ e) e).
    rewrite IH.
    match goal with |- (if ?b then _ else _) = _ => now destruct b end.
Qed.


(** ** normalizeToolKey *)

Lemma existsb_eqb_In (k : string) (keys : list string) :
  existsb (String.eqb k) keys = true <-> In k keys.
Proof.
  rewrite existsb_exists. split.
  - intros [x [Hin Heq]]. apply String.eqb_eq in Heq. now subst.
  - intros Hin. exists k. split; [assumption | apply String.eqb_refl].
Qed.

Lemma has_in_iff (k : string) (keys : list string) :
  has_in k keys = true <-> In k keys \/ In k Object_prototype.
Proof.
  unfold has_in. rewrite orb_true_iff, !existsb_eqb_In. reflexivity.
Qed.

Lemma normalizeToolKey_empty :
  normalizeToolKey Absent = None
  /\ normalizeToolKey Null = None
  /\ normalizeToolKey (Str "") = None.
Proof. repeat split. Qed.

(** A string whose lower-casing is a catalog key is mapped to that key. *)
Lemma normalizeToolKey_catalog (s : string) :
  In (toLowerCase s) TOOL_KEYS ->
  normalizeToolKey (Str s) = Some (toLowerCase s).
Proof.
  intros Hin. unfold normalizeToolKey, truthy.
  destruct s as [|c s].
  - simpl in Hin. intuition discriminate.
  - cbn [String.eqb negb].
    assert (H : has_in (toLowerCase (String c s)) TOOL_KEYS = true)
      by (apply has_in_iff; now left).
    now rewrite H.
Qed.

(** What a key returned by [normalizeToolKey] is: the lower-casing of a
    non-empty argument that names an own key of the catalog or a name that
    the catalog object inherits. *)
Lemma normalizeToolKey_Some (v : MaybeString) (k : string) :
  normalizeToolKey v = Some k ->
  exists s, v = Str s /\ s <> "" /\ k = toLowerCase s
            /\ (In k TOOL_KEYS \/ In k Object_prototype).
Proof.
  destruct v as [| |s]; try discriminate.
  unfold normalizeToolKey, truthy.
  destruct (String.eqb_spec s "") as [->|Hne]; [discriminate|].
  cbn [negb].
  destruct (has_in (toLowerCase s) TOOL_KEYS) eqn:Hin; [|discriminate].
  intros [= <-]. exists s. repeat split; try assumption.
  now apply has_in_iff.
Qed.

Lemma normalizeToolKey_None (s : string) :
  s <> "" ->
  ~ In (toLowerCase s) TOOL_KEYS ->
  ~ In (toLowerCase s) Object_prototype ->
  normalizeToolKey (Str s) = None.
Proof.
  intros Hne Hk Hp.
  destruct (normalizeToolKey (Str s)) as [k|] eqn:E; [|reflexivity].
  apply normalizeToolKey_Some in E.
  destruct E as (s' & [= <-] & _ & -> & [H|H]); contradiction.
Qed.

Lemma normalizeToolKey_not_empty (v : MaybeString) (k : string) :
  normalizeToolKey v = Some k -> String.eqb k "" = false.
Proof.
  intros H. apply normalizeToolKey_Some in H.
  destruct H as (s & -> & Hne & -> & _).
  destruct s; [contradiction | reflexivity].
Qed.

Example normalizeToolKey_mixed_case :
  normalizeToolKey (Str "CoDeX") = Some "codex".
Proof. reflexivity. Qed.

Example normalizeToolKey_rejects_cursor :
  normalizeToolKey (Str "cursor") = None.
Proof. reflexivity. Qed.

(** C2, at the argument ["constructor"].  The claim says that a string whose
    lower-casing is not one of the three catalog keys yields nothing.  The
    membership test [key in TOOLS] also answers yes for the names that the
    catalog object inherits, so ["constructor"] is returned as if it were a
    tool key, and [hasTool] accepts it. *)
Theorem normalizeToolKey_constructor :
  ~ In (toLowerCase "constructor") TOOL_KEYS
  /\ normalizeToolKey (Str "constructor") = Some "constructor"
  /\ hasTool "constructor" = true.
Proof.
  repeat split.
  cbn. intuition discriminate.
Qed.

(** ** selectYoloFlag *)

(** C9: [selectYoloFlag] returns the first entry of the tool's flag sequence,
    and nothing when the sequence is empty or absent. *)
Theorem selectYoloFlag_first (tool : ToolDefinition) :
  (forall first rest,
      yoloFlags tool = Some (first :: rest) -> selectYoloFlag tool = Some first)
  /\ (yoloFlags tool = Some [] -> selectYoloFlag tool = None)
  /\ (yoloFlags tool = None -> selectYoloFlag tool = None).
Proof.
  unfold selectYoloFlag. repeat split; intros; now rewrite H.
Qed.

Lemma selectYoloFlag_first_witness :
  selectYoloFlag codex = Some "--yolo"
  /\ selectYoloFlag
       {| bin := "example"; pretty := "Example CLI"; installers := [];
          yoloFlags := Some [] |} = None
  /\ selectYoloFlag
       {| bin := "example"; pretty := "Example CLI"; installers := [];
          yoloFlags := None |} = None.
Proof.
  split; [| split].
  - apply (proj1 (selectYoloFlag_first codex)
             "--yolo" ["--dangerously-bypass-approvals-and-sandbox"]).
    reflexivity.
  - apply (proj1 (proj2 (selectYoloFlag_first _))). reflexivity.
  - apply (proj2 (proj2 (selectYoloFlag_first _))). reflexivity.
Defined.

Example selectYoloFlag_catalog :
  map (fun entry => selectYoloFlag (snd entry)) TOOLS
  = [Some "--yolo"; Some "--dangerously-skip-permissions"; Some "--yolomode"].
Proof. reflexivity. Qed.

(** ** passthroughArgs *)

Lemma indexOf_from_absent (arr : list string) (x : string) (i : Z) :
  ~ In x arr -> indexOf_from arr x i = (-1)%Z.
Proof.
  revert i. induction arr as [|y arr IH]; intros i Hnot; simpl.
  - reflexivity.
  - destruct (String.eqb_spec y x) as [->|Hne].
    + exfalso. apply Hnot. now left.
    + apply IH. intros Hin. apply Hnot. now right.
Qed.

Lemma indexOf_from_first (pre post : list string) (x : string) (i : Z) :
  ~ In x pre ->
  indexOf_from (pre ++ x :: post) x i = (i + Z.of_nat (length pre))%Z.
Proof.
  revert i. induction pre as [|y pre IH]; intros i Hnot; simpl app.
  - simpl. rewrite String.eqb_refl. lia.
  - cbn [indexOf_from].
    destruct (String.eqb_spec y x) as [->|Hne].
    + exfalso. apply Hnot. now left.
    + rewrite IH by (intros Hin; apply Hnot; now right).
      cbn [length]. lia.
Qed.

Lemma slice_after {A : Type} (pre post : list A) (x : A) :
  slice (pre ++ x :: post) (Z.of_nat (length pre) + 1) = post.
Proof.
  unfold slice.
  assert (Hlen : length (pre ++ x :: post) = (length pre + S (length post))%nat)
    by (rewrite length_app; reflexivity).
  rewrite Hlen.
  destruct (Z.ltb_spec (Z.of_nat (length pre) + 1) 0) as [Hlt|_]; [lia|].
  rewrite Z.min_l by lia.
  replace (Z.to_nat (Z.of_nat (length pre) + 1)) with (length pre + 1)%nat by lia.
  rewrite skipn_app.
  rewrite skipn_all2 by lia.
  replace (length pre + 1 - length pre)%nat with 1%nat by lia.
  reflexivity.
Qed.

(** C7: without a ["--"] token the result is empty; otherwise it is exactly
    what follows the first ["--"], later ["--"] tokens included. *)
Theorem passthroughArgs_first_delimiter (argv : list string) :
  (~ In "--" argv -> passthroughArgs argv = [])
  /\ (forall pre post,
         argv = pre ++ "--" :: post -> ~ In "--" pre ->
         passthroughArgs argv = post).
Proof.
  unfold passthroughArgs, indexOf. split.
  - intros Hnot. now rewrite indexOf_from_absent.
  - intros pre post -> Hnot.
    rewrite indexOf_from_first by assumption.
    destruct (Z.leb_spec 0 (0 + Z.of_nat (length pre))) as [_|Hlt]; [|lia].
    rewrite Z.add_0_l. apply slice_after.
Qed.

Lemma passthroughArgs_first_delimiter_witness :
  passthroughArgs ["node"; "ai"; "use"; "codex"] = []
  /\ passthroughArgs
       ["node"; "ai"; "use"; "codex"; "--"; "--flag"; "--"; "literal"]
     = ["--flag"; "--"; "literal"].
Proof.
  split.
  - apply (proj1 (passthroughArgs_first_delimiter _)).
    simpl. intuition discriminate.
  - apply (proj2 (passthroughArgs_first_delimiter _)
             ["node"; "ai"; "use"; "codex"] ["--flag"; "--"; "literal"]).
    + reflexivity.
    + simpl. intuition discriminate.
Defined.

(** ** formatShellCommand *)

Lemma quoteArg_empty : quoteArg "" = "''".
Proof. reflexivity. Qed.

(** A non-empty token made of safe characters is emitted unchanged. *)
Lemma quoteArg_safe (arg : string) :
  arg <> "" -> every_char safe_char arg = true -> quoteArg arg = arg.
Proof.
  intros Hne Hsafe. unfold quoteArg, SAFE_CHARS_test.
  destruct (String.eqb_spec arg "") as [->|_]; [contradiction|].
  now rewrite Hsafe.
Qed.

Lemma replaceAll_without (c : ascii) (by_ s : string) :
  every_char (fun d => negb (Ascii.eqb d c)) s = true -> replaceAll c by_ s = s.
Proof.
  induction s as [|d s IH]; simpl; [reflexivity|].
  intros H. apply andb_true_iff in H. destruct H as [Hd Hs].
  destruct (Ascii.eqb d c); [discriminate|]. now rewrite IH.
Qed.

(** A token that is not safe and holds no quote character is wrapped in
    quotes as it is. *)
Lemma quoteArg_wraps (arg : string) :
  arg <> "" -> every_char safe_char arg = false ->
  every_char (fun d => negb (Ascii.eqb d "'")) arg = true ->
  quoteArg arg = ("'" ++ arg ++ "'")%string.
Proof.
  intros Hne Hunsafe Hplain. unfold quoteArg, SAFE_CHARS_test.
  destruct (String.eqb_spec arg "") as [->|_]; [contradiction|].
  rewrite Hunsafe. cbn [negb andb].
  now rewrite replaceAll_without.
Qed.

(** On tokens without a quote character the code and the specification's
    quoting agree. *)
Lemma quoteArg_posix_without_quote (arg : string) :
  every_char (fun d => negb (Ascii.eqb d "'")) arg = true ->
  quoteArg arg = quoteArg_posix arg.
Proof.
  intros Hplain. unfold quoteArg, quoteArg_posix.
  now rewrite !replaceAll_without.
Qed.

(** The tokens are joined by single spaces, the executable first. *)
Lemma formatShellCommand_cons (command arg : string) (args : list string) :
  formatShellCommand command (arg :: args)
  = (quoteArg command ++ " " ++ formatShellCommand arg args)%string.
Proof. reflexivity. Qed.

Lemma formatShellCommand_nil (command : string) :
  formatShellCommand command [] = quoteArg command.
Proof. reflexivity. Qed.

Example formatShellCommand_version :
  formatShellCommand "codex" ["--version"] = "codex --version".
Proof. reflexivity. Qed.

Example formatShellCommand_empty_argument :
  formatShellCommand "codex" [""] = "codex ''".
Proof. reflexivity. Qed.

(** C3, at the token [mix'ed].  The claim says that a quote character inside
    a quoted token is replaced by the four characters quote, backslash,
    quote, quote.  The replacement text that the code passes to [replace]
    holds three quote characters and no backslash, so the printed word is
    not the one the claim describes. *)
Theorem formatShellCommand_embedded_quote :
  formatShellCommand "codex" ["--model"; "space value"; "mix'ed"]
  = "codex --model 'space value' 'mix'''ed'"
  /\ formatShellCommand_posix "codex" ["--model"; "space value"; "mix'ed"]
     = "codex --model 'space value' 'mix'\''ed'"
  /\ formatShellCommand "codex" ["--model"; "space value"; "mix'ed"]
     <> formatShellCommand_posix "codex" ["--model"; "space value"; "mix'ed"].
Proof.
  split; [reflexivity | split; [reflexivity | discriminate]].
Qed.

(** ** getInstallerChoices *)

Lemma applicableb_iff (platform : string) (installer : Installer) :
  applicableb platform installer = true <-> applicable platform installer.
Proof.
  unfold applicableb, applicable, Array_includes.
  destruct (platforms installer) as [[|p ps]|].
  - split; [now left | reflexivity].
  - rewrite existsb_eqb_In. split.
    + intros H. now right.
    + intros [H|H]; [discriminate | assumption].
  - split; [trivial | reflexivity].
Qed.

Lemma isInstallerSupported_plain (h : Host) (installer : Installer)
  (platform : string) :
  isWSL h = false ->
  isInstallerSupported h installer (Some platform)
  = applicableb platform installer.
Proof.
  intros Hwsl. unfold isInstallerSupported, applicableb, orPlatform.
  destruct (platforms installer) as [[|p ps]|]; try reflexivity.
  now rewrite Hwsl.
Qed.

Lemma isInstallerSupported_wsl (h : Host) (installer : Installer)
  (platform : option string) :
  isWSL h = true ->
  isInstallerSupported h installer platform
  = applicableb "wsl" installer || applicableb "linux" installer.
Proof.
  intros Hwsl. unfold isInstallerSupported, applicableb.
  destruct (platforms installer) as [[|p ps]|]; try reflexivity.
  now rewrite Hwsl.
Qed.

(** Under WSL the process platform is ["linux"], and so is the default of
    the [platform] parameter. *)
Lemma isWSL_linux (h : Host) : isWSL h = true -> orPlatform h None = "linux".
Proof.
  unfold isWSL, orPlatform, os_platform.
  destruct (String.eqb_spec (process_platform h) "linux") as [->|_].
  - reflexivity.
  - discriminate.
Qed.

Lemma filter_ext_all {A : Type} (f g : A -> bool) (l : list A) :
  (forall a, f a = g a) -> filter f l = filter g l.
Proof.
  intros H. induction l as [|a l IH]; simpl; [reflexivity|].
  now rewrite H, IH.
Qed.

(** C6, on a host seen as WSL.  The claim keeps an installer with a
    non-empty platform set only when the set contains the platform.  Under
    WSL the code looks for ["wsl"] or ["linux"] in the set instead: for the
    platform ["linux"] it keeps a recipe whose set is ["wsl"] alone, which
    the claim leaves out. *)
Lemma getInstallerChoices_wsl_recipe :
  getInstallerChoices wslHost wslTool (Some "linux")
  <> map choiceOf (filter (applicableb "linux") (installers wslTool))
       ++ [{| name := "Cancel"; value := "" |}].
Proof. vm_compute. discriminate. Qed.

(** C6, amended.  Where WSL is not detected, the choices are the installers
    whose platform set is absent, empty or contains the platform, in catalog
    order, each shown as ["<label>: <command>"] with its raw command, then
    exactly one Cancel entry with an empty command.  Where WSL is detected,
    the choices for the platform of the process (["linux"], also the default
    of the parameter) are the installers whose set is absent, empty or
    contains ["wsl"] or ["linux"], then the Cancel entry. *)
Theorem getInstallerChoices_filtered (h : Host) (tool : ToolDefinition)
  (platform : string) :
  (forall installer,
      applicableb platform installer = true <-> applicable platform installer)
  /\ (isWSL h = false ->
      getInstallerChoices h tool (Some platform)
      = map choiceOf (filter (applicableb platform) (installers tool))
          ++ [{| name := "Cancel"; value := "" |}])
  /\ (isWSL h = true ->
      let kept :=
        filter (fun i => applicableb "wsl" i || applicableb "linux" i)
               (installers tool) in
      getInstallerChoices h tool None
      = map choiceOf kept ++ [{| name := "Cancel"; value := "" |}]
      /\ getInstallerChoices h tool (Some "linux")
         = map choiceOf kept ++ [{| name := "Cancel"; value := "" |}]).
Proof.
  split; [apply applicableb_iff | split].
  - intros Hwsl. unfold getInstallerChoices. cbn [orPlatform].
    f_equal. f_equal. apply filter_ext_all.
    intros i. now apply isInstallerSupported_plain.
  - intros Hwsl kept. subst kept. unfold getInstallerChoices.
    split; f_equal; f_equal; apply filter_ext_all;
      intros i; now apply isInstallerSupported_wsl.
Qed.

Lemma getInstallerChoices_filtered_witness :
  getInstallerChoices linuxHost codex (Some "darwin")
  = [ {| name := "npm: npm install -g @openai/codex";
         value := "npm install -g @openai/codex" |};
      {| name := "brew: brew install codex"; value := "brew install codex" |};
      {| name := "Cancel"; value := "" |} ]
  /\ getInstallerChoices wslHost codex None
     = [ {| name := "npm: npm install -g @openai/codex";
            value := "npm install -g @openai/codex" |};
         {| name := "Cancel"; value := "" |} ].
Proof.
  split.
  - apply (proj1 (proj2 (getInstallerChoices_filtered linuxHost codex "darwin"))).
    reflexivity.
  - apply (proj1 (proj2 (proj2 (getInstallerChoices_filtered wslHost codex "linux"))
                   eq_refl)).
Defined.

(** No installer is displayed as the Cancel entry: a display name holds a
    colon and a space before the command. *)
Lemma choiceOf_not_cancel (installer : Installer) :
  choiceOf installer <> CANCEL_CHOICE.
Proof.
  unfold choiceOf, CANCEL_CHOICE. intros H.
  injection H as Hn Hv. rewrite Hv in Hn. revert Hn.
  generalize (label installer) as l. intros l.
  do 6 (destruct l as [|? l]; cbn [String.append];
        [discriminate | intros Hn; injection Hn as _ Hn; revert Hn]).
  destruct l; discriminate.
Qed.

(** The Cancel entry is the last one and the only one, also when no
    installer is kept. *)
Lemma getInstallerChoices_cancel_last (h : Host) (tool : ToolDefinition)
  (platform : option string) :
  exists kept,
    getInstallerChoices h tool platform = kept ++ [CANCEL_CHOICE]
    /\ ~ In CANCEL_CHOICE kept.
Proof.
  unfold getInstallerChoices. eexists. split; [reflexivity|].
  intros Hin. apply in_map_iff in Hin. destruct Hin as (i & Heq & _).
  now apply (choiceOf_not_cancel i).
Qed.

(** C8, on two hosts that differ in their environment only.  The claim
    says that the result does not depend on the ambient environment; the
    code asks [isWSL] inside the filter, so the same tool and the same
    explicit platform give different choices on a Linux host and on that
    host seen as WSL. *)
Lemma getInstallerChoices_reads_environment :
  getInstallerChoices linuxHost wslTool (Some "linux")
  <> getInstallerChoices wslHost wslTool (Some "linux").
Proof. vm_compute. discriminate. Qed.

(** The same happens for a platform other than the one of the process: the
    Homebrew recipe of Codex is offered for ["darwin"] on the Linux host and
    not under WSL. *)
Example getInstallerChoices_wsl_darwin :
  getInstallerChoices linuxHost codex (Some "darwin")
  = map choiceOf (installers codex) ++ [CANCEL_CHOICE]
  /\ getInstallerChoices wslHost codex (Some "darwin")
     = [ {| name := "npm: npm install -g @openai/codex";
            value := "npm install -g @openai/codex" |};
         CANCEL_CHOICE ].
Proof. split; reflexivity. Qed.

(** C8, amended.  The choices are a function of the tool, the platform and
    the answer of the WSL detection: two hosts on which the detection gives
    the same answer return the same choices for the same tool and platform,
    whatever else differs in their environment. *)
Theorem getInstallerChoices_environment (h1 h2 : Host) (tool : ToolDefinition)
  (platform : string) :
  isWSL h1 = isWSL h2 ->
  getInstallerChoices h1 tool (Some platform)
  = getInstallerChoices h2 tool (Some platform).
Proof.
  intros Heq. unfold getInstallerChoices. cbn [orPlatform].
  f_equal. f_equal. apply filter_ext_all. intros i.
  unfold isInstallerSupported. cbn [orPlatform]. now rewrite Heq.
Qed.

Lemma getInstallerChoices_environment_witness :
  getInstallerChoices macHost codex (Some "linux")
  = getInstallerChoices winHost codex (Some "linux").
Proof.
  apply (getInstallerChoices_environment macHost winHost codex "linux").
  reflexivity.
Defined.

(** Off Linux the detection answers no, whatever the environment holds. *)
Lemma isWSL_off_linux (h : Host) :
  process_platform h <> "linux" -> isWSL h = false.
Proof.
  intros Hne. unfold isWSL.
  destruct (String.eqb_spec (process_platform h) "linux"); [contradiction|].
  reflexivity.
Qed.

(** ** loadConfig *)

Lemma typeof_string (v : Value) :
  String.eqb (typeof v) "string" = true <-> isString v.
Proof.
  unfold isString. destruct v; cbn; split; intros H;
    try discriminate; try (destruct H; discriminate);
    try reflexivity.
  now exists s.
Qed.

Lemma ensureStringArray_Some (v : Value) (items : list Value) :
  ensureStringArray v = Some items <-> v = VArray items /\ Forall isString items.
Proof.
  unfold ensureStringArray. split.
  - destruct v; try discriminate.
    destruct (forallb _ items0) eqn:E; [|discriminate].
    intros [= ->]. split; [reflexivity|].
    apply Forall_forall. intros x Hx.
    apply typeof_string. rewrite forallb_forall in E. now apply E.
  - intros [-> Hall].
    assert (E : forallb (fun item => String.eqb (typeof item) "string") items
                = true).
    { apply forallb_forall. intros x Hx. apply typeof_string.
      rewrite Forall_forall in Hall. now apply Hall. }
    now rewrite E.
Qed.

Lemma ensureStringArray_None (v : Value) :
  ensureStringArray v = None <-> ~ StringArray v.
Proof.
  unfold StringArray. split.
  - intros Hnone (items & -> & Hall).
    assert (H : ensureStringArray (VArray items) = Some items)
      by now apply ensureStringArray_Some.
    congruence.
  - intros Hnot. destruct (ensureStringArray v) as [items|] eqn:E; [|reflexivity].
    exfalso. apply Hnot. exists items. now apply ensureStringArray_Some.
Qed.

Section LoadConfig.

Context {World : Type}.
Variables (h : Host) (cwd : string) (logger : option (LoggerLike World)).

Let configPath : string := path_join h cwd CONFIG_FILENAME.

Lemma loadConfig_missing (w : World) :
  fs_existsSync h configPath = false ->
  loadConfig h cwd logger w = (Normal emptyConfig, w).
Proof.
  intros Hex. unfold loadConfig. fold configPath. now rewrite Hex.
Qed.

Lemma loadConfig_read_failure (w : World) (e : string) :
  fs_existsSync h configPath = true ->
  fs_readFileSync h configPath = Throw e ->
  loadConfig h cwd logger w
  = (Normal emptyConfig,
     notify logger ("Failed to load .ai-switch.json: " ++ e) w).
Proof.
  intros Hex Hread. unfold loadConfig. fold configPath. rewrite Hex.
  unfold tryCatch, bind, lift, warn_opt, ret. cbn [negb]. now rewrite Hread.
Qed.

Lemma loadConfig_parse_failure (w : World) (raw e : string) :
  fs_existsSync h configPath = true ->
  fs_readFileSync h configPath = Normal raw ->
  JSON_parse h raw = Throw e ->
  loadConfig h cwd logger w
  = (Normal emptyConfig,
     notify logger ("Failed to load .ai-switch.json: " ++ e) w).
Proof.
  intros Hex Hread Hparse. unfold loadConfig. fold configPath. rewrite Hex.
  unfold tryCatch, bind, lift, warn_opt, ret. cbn [negb].
  now rewrite Hread, Hparse.
Qed.

(** The document [null] parses, but has no properties to read. *)
Lemma loadConfig_property_failure (w : World) (raw : string) (doc : Value)
  (e : string) :
  fs_existsSync h configPath = true ->
  fs_readFileSync h configPath = Normal raw ->
  JSON_parse h raw = Normal doc ->
  getProp doc "defaultTool" = Throw e ->
  loadConfig h cwd logger w
  = (Normal emptyConfig,
     notify logger ("Failed to load .ai-switch.json: " ++ e) w).
Proof.
  intros Hex Hread Hparse Hprop. unfold loadConfig. fold configPath. rewrite Hex.
  unfold tryCatch, bind, lift, warn_opt, ret. cbn [negb].
  now rewrite Hread, Hparse, Hprop.
Qed.

(** The run of the loader on a document whose two fields read as [t] and
    [f]. *)
Lemma loadConfig_parsed (w : World) (raw : string) (doc t f : Value) :
  fs_existsSync h configPath = true ->
  fs_readFileSync h configPath = Normal raw ->
  JSON_parse h raw = Normal doc ->
  getProp doc "defaultTool" = Normal t ->
  getProp doc "defaultFlags" = Normal f ->
  let tool :=
    match t with VString s => normalizeToolKey (Str s) | _ => None end in
  let w1 :=
    match t with
    | VString s =>
        match normalizeToolKey (Str s) with
        | Some _ => w
        | None =>
            if String.eqb s "" then w
            else notify logger ("Ignoring unknown defaultTool: " ++ s) w
        end
    | _ => w
    end in
  let w2 :=
    match ensureStringArray f with
    | Some _ => w1
    | None =>
        match f with
        | VUndefined => w1
        | _ =>
            notify logger
              "Ignoring defaultFlags because it is not an array of strings." w1
        end
    end in
  loadConfig h cwd logger w
  = (Normal {| defaultTool := tool; defaultFlags := ensureStringArray f |}, w2).
Proof.
  intros Hex Hread Hparse Ht Hf tool w1 w2. subst tool w1 w2.
  unfold loadConfig. fold configPath. rewrite Hex.
  unfold tryCatch, bind, lift, warn_opt, ret. cbn [negb].
  rewrite Hread, Hparse, Ht.
  destruct t as [| | b | n | s | items | props]; cbn [typeof String.eqb Ascii.eqb
    Bool.eqb stringOf orUndefined];
    try (rewrite Hf; destruct (ensureStringArray f); [reflexivity|];
         destruct f; reflexivity).
  unfold truthy.
  destruct (normalizeToolKey (Str s)) as [key|] eqn:Hkey.
  - rewrite (normalizeToolKey_not_empty _ _ Hkey). cbn [negb].
    rewrite Hf. destruct (ensureStringArray f); [reflexivity|].
    destruct f; reflexivity.
  - destruct (String.eqb s ""); cbn [negb textOf]; rewrite Hf;
      (destruct (ensureStringArray f); [reflexivity|]; destruct f; reflexivity).
Qed.

End LoadConfig.

Lemma getProp_total (doc t : Value) (k k' : string) :
  getProp doc k = Normal t -> exists f, getProp doc k' = Normal f.
Proof.
  destruct doc; cbn; try discriminate; intros _; eauto.
  destruct (own props k'); eauto.
Qed.

Lemma failure_message_includes (e : string) :
  includes ("Failed to load .ai-switch.json: " ++ e)
           "Failed to load .ai-switch.json" = true
  /\ includes ("Failed to load .ai-switch.json: " ++ e) e = true.
Proof.
  split.
  - exact (includes_prefix "Failed to load .ai-switch.json" (": " ++ e)).
  - apply includes_suffix.
Qed.

(** With a logger that returns, [loadConfig] returns normally.  Without a
    configuration file the result is the empty configuration and the logger
    is not called.  When reading or parsing fails with the error text [e],
    the result is the empty configuration after one call of [logger?.warn]
    whose message contains ["Failed to load .ai-switch.json"] and [e]. *)
Theorem loadConfig_never_fatal {World : Type}
  (h : Host) (cwd : string) (logger : option (LoggerLike World)) (w : World) :
  (exists c w', loadConfig h cwd logger w = (Normal c, w'))
  /\ (fs_existsSync h (path_join h cwd CONFIG_FILENAME) = false ->
      loadConfig h cwd logger w = (Normal emptyConfig, w))
  /\ (forall e,
         fs_existsSync h (path_join h cwd CONFIG_FILENAME) = true ->
         fs_readFileSync h (path_join h cwd CONFIG_FILENAME) = Throw e
         \/ (exists raw,
                fs_readFileSync h (path_join h cwd CONFIG_FILENAME) = Normal raw
                /\ JSON_parse h raw = Throw e) ->
         exists message,
           loadConfig h cwd logger w
           = (Normal emptyConfig, notify logger message w)
           /\ includes message "Failed to load .ai-switch.json" = true
           /\ includes message e = true).
Proof.
  split; [| split].
  - destruct (fs_existsSync h (path_join h cwd CONFIG_FILENAME)) eqn:Hex.
    2: { rewrite loadConfig_missing by assumption. eauto. }
    destruct (fs_readFileSync h (path_join h cwd CONFIG_FILENAME))
      as [raw|e] eqn:Hread.
    2: { rewrite (loadConfig_read_failure h cwd logger w e) by assumption. eauto. }
    destruct (JSON_parse h raw) as [doc|e] eqn:Hparse.
    2: { rewrite (loadConfig_parse_failure h cwd logger w raw e) by assumption.
         eauto. }
    destruct (getProp doc "defaultTool") as [t|e] eqn:Ht.
    2: { rewrite (loadConfig_property_failure h cwd logger w raw doc e)
           by assumption. eauto. }
    destruct (getProp_total doc t "defaultTool" "defaultFlags" Ht) as [f Hf].
    rewrite (loadConfig_parsed h cwd logger w raw doc t f) by assumption.
    eauto.
  - apply loadConfig_missing.
  - intros e Hex Hfail.
    exists ("Failed to load .ai-switch.json: " ++ e)%string.
    split; [| apply failure_message_includes].
    destruct Hfail as [Hread | (raw & Hread & Hparse)].
    + now apply loadConfig_read_failure.
    + now apply (loadConfig_parse_failure h cwd logger w raw).
Qed.

Lemma loadConfig_never_fatal_witness :
  loadConfig emptyProject "/proj" (Some recorder) [] = (Normal emptyConfig, [])
  /\ exists message,
       loadConfig invalidJsonProject "/proj" (Some recorder) []
       = (Normal emptyConfig, [message])
       /\ includes message "Failed to load .ai-switch.json" = true
       /\ includes message
            "Expected property name or '}' in JSON at position 1" = true.
Proof.
  split.
  - apply (proj1 (proj2 (loadConfig_never_fatal
                           emptyProject "/proj" (Some recorder) []))).
    reflexivity.
  - apply (proj2 (proj2 (loadConfig_never_fatal
                           invalidJsonProject "/proj" (Some recorder) []))
             "Expected property name or '}' in JSON at position 1").
    + reflexivity.
    + right. exists "{invalid json". split; reflexivity.
Defined.

(** C10: a [defaultTool] field that is present and not a string is left out
    of the result without any call of the logger, and [defaultFlags] is
    handled as usual: copied when it is an array of strings, left out
    silently when absent, left out with its own warning otherwise. *)
Theorem loadConfig_non_string_defaultTool {World : Type}
  (h : Host) (cwd : string) (logger : option (LoggerLike World)) (w : World)
  (raw : string) (doc t f : Value) :
  fs_existsSync h (path_join h cwd CONFIG_FILENAME) = true ->
  fs_readFileSync h (path_join h cwd CONFIG_FILENAME) = Normal raw ->
  JSON_parse h raw = Normal doc ->
  getProp doc "defaultTool" = Normal t ->
  getProp doc "defaultFlags" = Normal f ->
  t <> VUndefined ->
  ~ isString t ->
  exists c w',
    loadConfig h cwd logger w = (Normal c, w')
    /\ defaultTool c = None
    /\ (forall items,
           f = VArray items -> Forall isString items ->
           defaultFlags c = Some items /\ w' = w)
    /\ (f = VUndefined -> defaultFlags c = None /\ w' = w)
    /\ (f <> VUndefined -> ~ StringArray f ->
        defaultFlags c = None
        /\ w' = notify logger
                  "Ignoring defaultFlags because it is not an array of strings."
                  w).
Proof.
  intros Hex Hread Hparse Ht Hf Hpresent Hnot.
  rewrite (loadConfig_parsed h cwd logger w raw doc t f) by assumption.
  do 2 eexists. split; [reflexivity|].
  assert (Htool : match t with
                  | VString s => normalizeToolKey (Str s)
                  | _ => None
                  end = None).
  { destruct t; try reflexivity. exfalso. apply Hnot. now exists s. }
  assert (Hw : match t with
               | VString s =>
                   match normalizeToolKey (Str s) with
                   | Some _ => w
                   | None =>
                       if String.eqb s "" then w
                       else notify logger
                              ("Ignoring unknown defaultTool: " ++ s) w
                   end
               | _ => w
               end = w).
  { destruct t; try reflexivity. exfalso. apply Hnot. now exists s. }
  cbn [defaultTool defaultFlags]. rewrite Hw.
  split; [exact Htool | split; [| split]].
  - intros items -> Hall.
    assert (E : ensureStringArray (VArray items) = Some items)
      by now apply ensureStringArray_Some.
    rewrite E. split; reflexivity.
  - intros ->. split; reflexivity.
  - intros Hdef Hbad. apply ensureStringArray_None in Hbad. rewrite Hbad.
    split; [reflexivity|]. destruct f; try reflexivity. contradiction.
Qed.

Lemma loadConfig_non_string_defaultTool_witness :
  exists c w',
    loadConfig numericToolProject "/proj" (Some recorder) [] = (Normal c, w')
    /\ defaultTool c = None
    /\ defaultFlags c = None
    /\ w' = ["Ignoring defaultFlags because it is not an array of strings."].
Proof.
  destruct (loadConfig_non_string_defaultTool
              numericToolProject "/proj" (Some recorder) []
              _ _ (VNumber 42) (VArray [VString "--model"; VNumber 123])
              eq_refl eq_refl eq_refl eq_refl eq_refl)
    as (c & w' & Hrun & Htool & _ & _ & Hbad).
  - discriminate.
  - intros [s Hs]. discriminate.
  - exists c, w'. split; [exact Hrun | split; [exact Htool |]].
    apply Hbad.
    + discriminate.
    + intros (items & Heq & Hall). injection Heq as <-.
      inversion Hall as [|x l Hx Hl]; subst.
      inversion Hl as [|y l' Hy _]; subst.
      destruct Hy as [s Hs]. discriminate.
Defined.

(** C5, on the document whose [defaultTool] is the empty string.  The claim
    says that a string [defaultTool] that fails normalization is left out
    with a warning; the empty string fails normalization, and the loader
    leaves it out without calling the logger. *)
Lemma loadConfig_empty_defaultTool_silent :
  normalizeToolKey (Str "") = None
  /\ fst (loadConfig emptyToolProject "/proj" (Some recorder) [])
     = Normal emptyConfig
  /\ ~ (exists message,
           In message
              (snd (loadConfig emptyToolProject "/proj" (Some recorder) []))
           /\ includes message "Ignoring unknown defaultTool: " = true).
Proof.
  split; [reflexivity | split; [reflexivity |]].
  intros (message & Hin & _). vm_compute in Hin. exact Hin.
Qed.

(** C5, amended.  On a parsed document the two fields are decided one by
    one.  A string [defaultTool] that normalizes is stored as its key; one
    that does not is left out, with the warning
    ["Ignoring unknown defaultTool: <value>"] when the string is not empty
    and with no warning when it is empty.  A [defaultFlags] that is an array
    of strings is copied as it is; any other value that is present is left
    out with the warning
    ["Ignoring defaultFlags because it is not an array of strings."].
    Neither decision changes the other field: [w1] is the logger's world
    after the first field, [w2] after the second. *)
Theorem loadConfig_fields_independent {World : Type}
  (h : Host) (cwd : string) (logger : option (LoggerLike World)) (w : World)
  (raw : string) (doc t f : Value) :
  fs_existsSync h (path_join h cwd CONFIG_FILENAME) = true ->
  fs_readFileSync h (path_join h cwd CONFIG_FILENAME) = Normal raw ->
  JSON_parse h raw = Normal doc ->
  getProp doc "defaultTool" = Normal t ->
  getProp doc "defaultFlags" = Normal f ->
  exists c w1 w2,
    loadConfig h cwd logger w = (Normal c, w2)
    /\ (forall s key,
           t = VString s -> normalizeToolKey (Str s) = Some key ->
           defaultTool c = Some key /\ w1 = w)
    /\ (forall s,
           t = VString s -> normalizeToolKey (Str s) = None -> s <> "" ->
           defaultTool c = None
           /\ w1 = notify logger ("Ignoring unknown defaultTool: " ++ s) w)
    /\ (t = VString "" -> defaultTool c = None /\ w1 = w)
    /\ (~ isString t -> defaultTool c = None /\ w1 = w)
    /\ (forall items,
           f = VArray items -> Forall isString items ->
           defaultFlags c = Some items /\ w2 = w1)
    /\ (f = VUndefined -> defaultFlags c = None /\ w2 = w1)
    /\ (f <> VUndefined -> ~ StringArray f ->
        defaultFlags c = None
        /\ w2 = notify logger
                  "Ignoring defaultFlags because it is not an array of strings."
                  w1).
Proof.
  intros Hex Hread Hparse Ht Hf.
  rewrite (loadConfig_parsed h cwd logger w raw doc t f) by assumption.
  eexists.
  exists (match t with
          | VString s =>
              match normalizeToolKey (Str s) with
              | Some _ => w
              | None =>
                  if String.eqb s "" then w
                  else notify logger ("Ignoring unknown defaultTool: " ++ s) w
              end
          | _ => w
          end).
  eexists. split; [reflexivity|].
  cbn [defaultTool defaultFlags].
  repeat apply conj.
  - intros s key -> Hkey. rewrite Hkey. split; reflexivity.
  - intros s -> Hkey Hne. rewrite Hkey.
    destruct (String.eqb_spec s "") as [->|_]; [contradiction|].
    split; reflexivity.
  - intros ->. split; reflexivity.
  - intros Hnot. destruct t; try (split; reflexivity).
    exfalso. apply Hnot. now exists s.
  - intros items -> Hall.
    assert (E : ensureStringArray (VArray items) = Some items)
      by now apply ensureStringArray_Some.
    rewrite E. split; reflexivity.
  - intros ->. split; reflexivity.
  - intros Hdef Hbad. apply ensureStringArray_None in Hbad. rewrite Hbad.
    split; [reflexivity|]. destruct f; try reflexivity. contradiction.
Qed.

Lemma loadConfig_fields_independent_witness :
  exists c w2,
    loadConfig cursorProject "/proj" (Some recorder) [] = (Normal c, w2)
    /\ defaultTool c = None
    /\ defaultFlags c = Some [VString "--model"; VString "claude-3"]
    /\ w2 = ["Ignoring unknown defaultTool: cursor"].
Proof.
  destruct (loadConfig_fields_independent
              cursorProject "/proj" (Some recorder) []
              _ _ (VString "cursor")
              (VArray [VString "--model"; VString "claude-3"])
              eq_refl eq_refl eq_refl eq_refl eq_refl)
    as (c & w1 & w2 & Hrun & _ & Hunknown & _ & _ & Hflags & _ & _).
  destruct (Hunknown "cursor" eq_refl eq_refl) as [Htool Hw1];
    [discriminate|].
  destruct (Hflags [VString "--model"; VString "claude-3"] eq_refl)
    as [Hfl Hw2].
  { repeat constructor; eexists; reflexivity. }
  exists c, w2. repeat split; try assumption.
  rewrite Hw2, Hw1. reflexivity.
Defined.

Example loadConfig_valid_defaults :
  loadConfig
    (projectWith
       ("{" ++ quoted "defaultTool" ++ ":" ++ quoted "CLAUDE" ++ ","
            ++ quoted "defaultFlags" ++ ":[" ++ quoted "--model" ++ ","
            ++ quoted "claude-3" ++ "]}")
       (VObject [("defaultTool", VString "CLAUDE");
                 ("defaultFlags",
                  VArray [VString "--model"; VString "claude-3"])]))
    "/proj" (Some recorder) []
  = (Normal {| defaultTool := Some "claude";
               defaultFlags := Some [VString "--model"; VString "claude-3"] |},
     []).
Proof. reflexivity. Qed.

(** What the loader guarantees about the fields it returns: the flags are
    strings, and the tool is a catalog key or a name that the catalog
    object inherits. *)
Lemma loadConfig_returned_fields {World : Type}
  (h : Host) (cwd : string) (logger : option (LoggerLike World)) (w w' : World)
  (c : AiSwitchConfig) :
  loadConfig h cwd logger w = (Normal c, w') ->
  (forall key,
      defaultTool c = Some key -> In key TOOL_KEYS \/ In key Object_prototype)
  /\ (forall items, defaultFlags c = Some items -> Forall isString items).
Proof.
  intros Hrun.
  destruct (fs_existsSync h (path_join h cwd CONFIG_FILENAME)) eqn:Hex.
  2: { rewrite loadConfig_missing in Hrun by assumption.
       injection Hrun as <- _. split; discriminate. }
  destruct (fs_readFileSync h (path_join h cwd CONFIG_FILENAME))
    as [raw|e] eqn:Hread.
  2: { rewrite (loadConfig_read_failure h cwd logger w e) in Hrun by assumption.
       injection Hrun as <- _. split; discriminate. }
  destruct (JSON_parse h raw) as [doc|e] eqn:Hparse.
  2: { rewrite (loadConfig_parse_failure h cwd logger w raw e) in Hrun
         by assumption.
       injection Hrun as <- _. split; discriminate. }
  destruct (getProp doc "defaultTool") as [t|e] eqn:Ht.
  2: { rewrite (loadConfig_property_failure h cwd logger w raw doc e) in Hrun
         by assumption.
       injection Hrun as <- _. split; discriminate. }
  destruct (getProp_total doc t "defaultTool" "defaultFlags" Ht) as [f Hf].
  rewrite (loadConfig_parsed h cwd logger w raw doc t f) in Hrun by assumption.
  injection Hrun as <- _. cbn [defaultTool defaultFlags]. split.
  - intros key Hkey. destruct t; try discriminate.
    change (normalizeToolKey (Str s) = Some key) in Hkey.
    apply normalizeToolKey_Some in Hkey.
    destruct Hkey as (_ & _ & _ & _ & H). exact H.
  - intros items Hitems. now apply ensureStringArray_Some in Hitems.
Qed.

(** C1, on the document whose [defaultTool] is ["constructor"].  The claim
    says that a [defaultTool] present in the result is one of the catalog
    keys.  The loader stores what [normalizeToolKey] returns, and that
    function accepts the inherited name ["constructor"], so the result
    holds a [defaultTool] that is no catalog key; no warning is given. *)
Theorem loadConfig_defaultTool_constructor :
  loadConfig constructorProject "/proj" (Some recorder) []
  = (Normal {| defaultTool := Some "constructor"; defaultFlags := None |}, [])
  /\ ~ In "constructor" TOOL_KEYS.
Proof.
  split; [reflexivity|]. cbn. intuition discriminate.
Qed.

(** * Further properties of [src/core.ts] *)

(** ** Tool keys *)

Lemma lower_idempotent (c : ascii) : lower (lower c) = lower c.
Proof.
  destruct c as [b0 b1 b2 b3 b4 b5 b6 b7].
  destruct b0, b1, b2, b3, b4, b5, b6, b7; reflexivity.
Qed.

Lemma toLowerCase_idempotent (s : string) :
  toLowerCase (toLowerCase s) = toLowerCase s.
Proof.
  induction s as [|c s IH]; simpl; [reflexivity|].
  now rewrite lower_idempotent, IH.
Qed.

Lemma toLowerCase_app (a b : string) :
  toLowerCase (a ++ b) = (toLowerCase a ++ toLowerCase b)%string.
Proof.
  induction a as [|c a IH]; simpl; [reflexivity | now rewrite IH].
Qed.

Lemma toLowerCase_empty (s : string) : toLowerCase s = "" -> s = "".
Proof. destruct s; [reflexivity | discriminate]. Qed.

Lemma normalizeToolKey_fixed (v : MaybeString) (k : string) :
  normalizeToolKey v = Some k ->
  normalizeToolKey (Str k) = Some k /\ toLowerCase k = k.
Proof.
  intros H. apply normalizeToolKey_Some in H.
  destruct H as (s & _ & Hne & -> & Hin).
  split; [| apply toLowerCase_idempotent].
  unfold normalizeToolKey, truthy.
  destruct (String.eqb_spec (toLowerCase s) "") as [E|_].
  - apply toLowerCase_empty in E. contradiction.
  - cbn [negb]. rewrite toLowerCase_idempotent.
    apply has_in_iff in Hin. now rewrite Hin.
Qed.

(** A key returned by [normalizeToolKey] is in canonical form: it is its own
    lower-casing, and normalizing it again returns it unchanged. *)
Theorem normalizeToolKey_idempotent (v : MaybeString) (k : string) :
  normalizeToolKey v = Some k ->
  toLowerCase k = k /\ normalizeToolKey (Str k) = Some k /\ hasTool k = true.
Proof.
  intros H. destruct (normalizeToolKey_fixed v k H) as [Hfix Hlow].
  repeat split; try assumption.
  unfold hasTool. now rewrite Hfix.
Qed.

Lemma normalizeToolKey_idempotent_witness :
  toLowerCase "gemini" = "gemini"
  /\ normalizeToolKey (Str "gemini") = Some "gemini"
  /\ hasTool "gemini" = true.
Proof.
  apply (normalizeToolKey_idempotent (Str "GeMiNi") "gemini"). reflexivity.
Defined.

(** [normalizeToolKey] does not look at the case of its argument: two
    strings with the same lower-casing get the same answer. *)
Theorem normalizeToolKey_case_insensitive (s1 s2 : string) :
  toLowerCase s1 = toLowerCase s2 ->
  normalizeToolKey (Str s1) = normalizeToolKey (Str s2)
  /\ hasTool s1 = hasTool s2.
Proof.
  intros H.
  assert (E : normalizeToolKey (Str s1) = normalizeToolKey (Str s2)).
  { unfold normalizeToolKey, truthy. rewrite H.
    destruct s1 as [|c1 s1], s2 as [|c2 s2]; try discriminate; reflexivity. }
  split; [exact E|]. unfold hasTool. now rewrite E.
Qed.

Lemma normalizeToolKey_case_insensitive_witness :
  normalizeToolKey (Str "CLAUDE") = normalizeToolKey (Str "Claude")
  /\ hasTool "CLAUDE" = hasTool "Claude".
Proof.
  apply (normalizeToolKey_case_insensitive "CLAUDE" "Claude"). reflexivity.
Defined.

(** ** WSL detection *)

Lemma includes_app_r (a x sub : string) :
  includes x sub = true -> includes (a ++ x) sub = true.
Proof.
  intros H. induction a as [|c a IH]; [exact H|].
  change (includes (String c a ++ x) sub)
    with (if String.prefix sub (String c (a ++ x)) then true
          else includes (a ++ x) sub).
  rewrite IH.
  match goal with |- (if ?b then _ else _) = _ => now destruct b end.
Qed.

Lemma includes_middle (a b c : string) : includes (a ++ b ++ c) b = true.
Proof. apply includes_app_r, includes_prefix. Qed.

(** On a Linux process, a [/proc/version] that mentions Microsoft in any
    mix of upper and lower case is taken for WSL, whatever the environment
    variables are. *)
Theorem isWSL_proc_version_any_case (h : Host) (before word after : string) :
  process_platform h = "linux" ->
  fs_readFileSync h "/proc/version" = Normal (before ++ word ++ after)%string ->
  toLowerCase word = "microsoft" ->
  isWSL h = true.
Proof.
  intros Hp Hread Hword. unfold isWSL. rewrite Hp, String.eqb_refl.
  cbn [negb].
  destruct (existsb (String.eqb "WSL_DISTRO_NAME") (map fst (process_env h)));
    [reflexivity|].
  rewrite Hread, !toLowerCase_app, Hword. apply includes_middle.
Qed.

Lemma isWSL_proc_version_any_case_witness :
  isWSL (mkHost "linux" []
           [("/proc/version", "Linux version 4.4.0-19041-Microsoft (gcc)")] [])
  = true.
Proof.
  apply (isWSL_proc_version_any_case _ "Linux version 4.4.0-19041-"
           "Microsoft" " (gcc)"); reflexivity.
Defined.

(** WSL is only ever detected on a process whose platform is ["linux"]: on
    any other platform neither the environment nor [/proc/version] is
    looked at, and the installers are matched against the platform given. *)
Theorem isWSL_only_on_linux (h : Host) (installer : Installer)
  (platform : string) :
  process_platform h <> "linux" ->
  isWSL h = false
  /\ isInstallerSupported h installer (Some platform)
     = applicableb platform installer.
Proof.
  intros Hne.
  assert (Hwsl : isWSL h = false).
  { unfold isWSL.
    destruct (String.eqb_spec (process_platform h) "linux"); [contradiction|].
    reflexivity. }
  split; [exact Hwsl | now apply isInstallerSupported_plain].
Qed.

Lemma isWSL_only_on_linux_witness :
  isWSL winHost = false
  /\ isInstallerSupported winHost
       {| label := "brew"; cmd := "brew install codex";
          platforms := Some ["darwin"] |} (Some "darwin")
     = applicableb "darwin"
         {| label := "brew"; cmd := "brew install codex";
            platforms := Some ["darwin"] |}.
Proof.
  apply (isWSL_only_on_linux winHost). discriminate.
Defined.

(** ** Installer choices *)

(** Whatever the host, the tool and the platform (given or defaulted), the
    choices end with the Cancel entry and no other entry is the Cancel
    entry; in particular the list is never empty and never longer than the
    installers plus one. *)
Theorem getInstallerChoices_one_cancel (h : Host) (tool : ToolDefinition)
  (platform : option string) :
  exists kept,
    getInstallerChoices h tool platform = kept ++ [CANCEL_CHOICE]
    /\ ~ In CANCEL_CHOICE kept
    /\ length kept <= length (installers tool).
Proof.
  unfold getInstallerChoices. eexists. split; [reflexivity | split].
  - intros Hin. apply in_map_iff in Hin. destruct Hin as (i & Heq & _).
    now apply (choiceOf_not_cancel i).
  - rewrite length_map. apply filter_length_le.
Qed.

Lemma getInstallerChoices_In (h : Host) (tool : ToolDefinition)
  (platform : option string) (choice : Choice) :
  In choice (getInstallerChoices h tool platform) ->
  choice = CANCEL_CHOICE
  \/ exists installer,
       In installer (installers tool)
       /\ name choice = (label installer ++ ": " ++ cmd installer)%string
       /\ value choice = cmd installer.
Proof.
  unfold getInstallerChoices. intros Hin.
  apply in_app_or in Hin. destruct Hin as [Hin|Hin].
  - right. apply in_map_iff in Hin. destruct Hin as (i & <- & Hi).
    apply filter_In in Hi. exists i. repeat split. apply Hi.
  - left. destruct Hin as [<-|[]]. reflexivity.
Qed.

(** Every choice other than Cancel is one of the tool's own installers,
    shown with its label and carrying its command unchanged: no command is
    offered that the tool definition does not list. *)
Theorem getInstallerChoices_from_tool (h : Host) (tool : ToolDefinition)
  (platform : option string) (choice : Choice) :
  In choice (getInstallerChoices h tool platform) ->
  choice = CANCEL_CHOICE
  \/ exists installer,
       In installer (installers tool)
       /\ name choice = (label installer ++ ": " ++ cmd installer)%string
       /\ value choice = cmd installer.
Proof. apply getInstallerChoices_In. Qed.

Lemma getInstallerChoices_from_tool_witness :
  {| name := "brew: brew install codex"; value := "brew install codex" |}
  = CANCEL_CHOICE
  \/ exists installer,
       In installer (installers codex)
       /\ "brew: brew install codex"
          = (label installer ++ ": " ++ cmd installer)%string
       /\ "brew install codex" = cmd installer.
Proof.
  apply (getInstallerChoices_from_tool macHost codex None
           {| name := "brew: brew install codex";
              value := "brew install codex" |}).
  vm_compute. tauto.
Defined.

(** An installer without a platform set, or with an empty one, is offered
    on every host and for every platform, WSL or not. *)
Theorem getInstallerChoices_universal (h : Host) (tool : ToolDefinition)
  (platform : option string) (installer : Installer) :
  In installer (installers tool) ->
  platforms installer = None \/ platforms installer = Some [] ->
  In {| name := label installer ++ ": " ++ cmd installer;
        value := cmd installer |}
     (getInstallerChoices h tool platform).
Proof.
  intros Hin Huniv. unfold getInstallerChoices.
  apply in_or_app. left.
  apply (in_map (fun i => {| name := label i ++ ": " ++ cmd i; value := cmd i |})).
  apply filter_In. split; [assumption|].
  unfold isInstallerSupported. destruct Huniv as [-> | ->]; reflexivity.
Qed.

Lemma getInstallerChoices_universal_witness :
  In {| name := "npm: npm install -g example";
        value := "npm install -g example" |}
     (getInstallerChoices wslHost wslTool (Some "darwin")).
Proof.
  apply (getInstallerChoices_universal wslHost wslTool (Some "darwin")
           {| label := "npm"; cmd := "npm install -g example";
              platforms := Some [] |}).
  - left. reflexivity.
  - right. reflexivity.
Defined.

(** ** Pass-through arguments, further *)

Lemma first_occurrence (x : string) (l : list string) :
  ~ In x l \/ exists pre post, l = pre ++ x :: post /\ ~ In x pre.
Proof.
  induction l as [|y l IH].
  - left. intros [].
  - destruct (String.eqb_spec y x) as [->|Hne].
    + right. exists [], l. split; [reflexivity | intros []].
    + destruct IH as [Hnot | (pre & post & -> & Hpre)].
      * left. intros [H|H]; [now apply Hne | now apply Hnot].
      * right. exists (y :: pre), post. split; [reflexivity|].
        intros [H|H]; [now apply Hne | now apply Hpre].
Qed.

Lemma passthroughArgs_none (argv : list string) :
  ~ In "--" argv -> passthroughArgs argv = [].
Proof.
  intros Hnot. unfold passthroughArgs, indexOf.
  now rewrite indexOf_from_absent.
Qed.

Lemma passthroughArgs_at (pre post : list string) :
  ~ In "--" pre -> passthroughArgs (pre ++ "--" :: post) = post.
Proof.
  intros Hnot. unfold passthroughArgs, indexOf.
  rewrite indexOf_from_first by assumption.
  destruct (Z.leb_spec 0 (0 + Z.of_nat (length pre))) as [_|Hlt]; [|lia].
  rewrite Z.add_0_l. apply slice_after.
Qed.

(** The result is always a tail of the argument list: nothing is added,
    reordered or taken from before the delimiter, and when any token was
    cut off the last of them is the delimiter itself. *)
Theorem passthroughArgs_suffix (argv : list string) :
  exists cut,
    argv = cut ++ passthroughArgs argv
    /\ (In "--" argv -> exists pre, cut = pre ++ ["--"] /\ ~ In "--" pre)
    /\ (~ In "--" argv -> cut = argv).
Proof.
  destruct (first_occurrence "--" argv) as [Hnot | (pre & post & -> & Hpre)].
  - exists argv. rewrite passthroughArgs_none by assumption.
    rewrite app_nil_r. split; [reflexivity | split].
    + intros Hin. contradiction.
    + intros _. reflexivity.
  - exists (pre ++ ["--"]). rewrite passthroughArgs_at by assumption.
    rewrite <- app_assoc. split; [reflexivity | split].
    + intros _. now exists pre.
    + intros Hnot. exfalso. apply Hnot, in_or_app. right. now left.
Qed.

(** Appending tokens to a list that already holds the delimiter appends
    them to the result; prepending tokens that do not hold the delimiter
    changes nothing. *)
Theorem passthroughArgs_app (a b : list string) :
  (In "--" a -> passthroughArgs (a ++ b) = passthroughArgs a ++ b)
  /\ (~ In "--" a -> passthroughArgs (a ++ b) = passthroughArgs b).
Proof.
  split.
  - intros Hin.
    destruct (first_occurrence "--" a) as [Hnot | (pre & post & -> & Hpre)];
      [contradiction|].
    rewrite <- app_assoc. cbn [app].
    now rewrite !passthroughArgs_at.
  - intros Hnot.
    destruct (first_occurrence "--" b) as [Hb | (pre & post & -> & Hpre)].
    + rewrite !passthroughArgs_none; try assumption; [reflexivity|].
      intros H. apply in_app_or in H. tauto.
    + rewrite app_assoc. rewrite !passthroughArgs_at; try assumption;
        [reflexivity|].
      intros H. apply in_app_or in H. tauto.
Qed.

Lemma passthroughArgs_app_witness :
  passthroughArgs (["ai"; "use"; "--"; "-v"] ++ ["--"; "x"])
  = passthroughArgs ["ai"; "use"; "--"; "-v"] ++ ["--"; "x"]
  /\ passthroughArgs (["node"; "ai"] ++ ["use"; "--"; "-v"])
     = passthroughArgs ["use"; "--"; "-v"].
Proof.
  split.
  - apply (proj1 (passthroughArgs_app ["ai"; "use"; "--"; "-v"] ["--"; "x"])).
    simpl. tauto.
  - apply (proj2 (passthroughArgs_app ["node"; "ai"] ["use"; "--"; "-v"])).
    simpl. intuition discriminate.
Defined.

(** ** Shell formatting, further *)

Lemma quoteArg_SAFE (arg : string) :
  SAFE_CHARS_test arg = true -> quoteArg arg = arg.
Proof.
  intros H. unfold quoteArg. rewrite H.
  unfold SAFE_CHARS_test in H. apply andb_true_iff in H.
  now destruct (String.eqb arg "").
Qed.

(** When the executable and every argument are safe tokens, the command is
    printed as the tokens themselves separated by single spaces. *)
Theorem formatShellCommand_safe (command : string) (args : list string) :
  Forall (fun token => SAFE_CHARS_test token = true) (command :: args) ->
  formatShellCommand command args = join " " (command :: args).
Proof.
  intros Hall. unfold formatShellCommand. f_equal.
  induction Hall as [|token tokens Htoken _ IH]; [reflexivity|].
  cbn [map]. now rewrite quoteArg_SAFE, IH.
Qed.

Lemma formatShellCommand_safe_witness :
  formatShellCommand "codex" ["--model"; "gpt-5-codex"; "a/b=c,d:e@f%g+h"]
  = join " " ["codex"; "--model"; "gpt-5-codex"; "a/b=c,d:e@f%g+h"].
Proof.
  apply (formatShellCommand_safe "codex"
           ["--model"; "gpt-5-codex"; "a/b=c,d:e@f%g+h"]).
  repeat constructor.
Defined.

Lemma safe_char_not_special (c : ascii) :
  safe_char c = true -> shell_special c = false.
Proof.
  destruct c as [b0 b1 b2 b3 b4 b5 b6 b7].
  destruct b0, b1, b2, b3, b4, b5, b6, b7; vm_compute;
    intros H; solve [reflexivity | discriminate H].
Qed.

(** A token that is printed without quotes holds no character that a shell
    treats specially: no blank, quote, backslash, dollar, backquote,
    operator or pattern character. *)
Theorem SAFE_CHARS_no_shell_special (arg : string) :
  SAFE_CHARS_test arg = true ->
  quoteArg arg = arg
  /\ every_char (fun c => negb (shell_special c)) arg = true.
Proof.
  intros H. split; [now apply quoteArg_SAFE|].
  unfold SAFE_CHARS_test in H. apply andb_true_iff in H. destruct H as [_ H].
  induction arg as [|c arg IH]; [reflexivity|].
  cbn [every_char] in *. apply andb_true_iff in H. destruct H as [Hc Hrest].
  rewrite (safe_char_not_special c Hc). cbn [negb andb]. now apply IH.
Qed.

Lemma SAFE_CHARS_no_shell_special_witness :
  quoteArg "--dangerously-skip-permissions" = "--dangerously-skip-permissions"
  /\ every_char (fun c => negb (shell_special c))
       "--dangerously-skip-permissions" = true.
Proof.
  apply (SAFE_CHARS_no_shell_special "--dangerously-skip-permissions").
  reflexivity.
Defined.

Lemma string_app_nil_r (s : string) : (s ++ "")%string = s.
Proof. induction s; simpl; congruence. Qed.

Lemma string_app_assoc (a b c : string) :
  ((a ++ b) ++ c)%string = (a ++ b ++ c)%string.
Proof. induction a; simpl; congruence. Qed.

Lemma replaceAll_app (c : ascii) (by_ a b : string) :
  replaceAll c by_ (a ++ b)
  = (replaceAll c by_ a ++ replaceAll c by_ b)%string.
Proof.
  induction a as [|d a IH]; simpl; [reflexivity|].
  destruct (Ascii.eqb d c); rewrite IH; [|reflexivity].
  now rewrite string_app_assoc.
Qed.

Lemma withoutQuotes_replaceAll (s : string) :
  withoutQuotes (replaceAll "'"%char "'''" s) = withoutQuotes s.
Proof.
  unfold withoutQuotes. induction s as [|d s IH]; [reflexivity|].
  cbn [replaceAll]. destruct (Ascii.eqb d "'") eqn:E.
  - rewrite replaceAll_app, IH. reflexivity.
  - cbn [replaceAll]. rewrite E. now rewrite IH.
Qed.

Lemma withoutQuotes_quoteArg (arg : string) :
  withoutQuotes (quoteArg arg) = withoutQuotes arg.
Proof.
  unfold quoteArg.
  destruct (String.eqb_spec arg "") as [->|_]; [reflexivity|].
  destruct (SAFE_CHARS_test arg); [reflexivity|].
  unfold withoutQuotes at 1.
  change ("'" ++ replaceAll "'"%char "'''" arg ++ "'")%string
    with (String "'"%char (replaceAll "'"%char "'''" arg ++ "'")%string).
  cbn [replaceAll Ascii.eqb Bool.eqb]. cbn [String.append].
  rewrite replaceAll_app. cbn [replaceAll Ascii.eqb Bool.eqb String.append].
  rewrite string_app_nil_r. apply withoutQuotes_replaceAll.
Qed.

(** Quoting only ever adds quote characters: with the quote characters
    taken out, the printed command is the tokens, each without its quote
    characters, separated by single spaces.  No other character of a token
    is dropped, changed or added (in particular no backslash). *)
Theorem formatShellCommand_adds_quotes_only (command : string)
  (args : list string) :
  withoutQuotes (formatShellCommand command args)
  = join " " (map withoutQuotes (command :: args)).
Proof.
  unfold formatShellCommand.
  generalize (command :: args) as tokens. intros tokens.
  induction tokens as [|token tokens IH]; [reflexivity|].
  destruct tokens as [|next tokens].
  - cbn [map join]. apply withoutQuotes_quoteArg.
  - change (join " " (map quoteArg (token :: next :: tokens)))
      with (quoteArg token ++ " " ++ join " " (map quoteArg (next :: tokens)))%string.
    change (join " " (map withoutQuotes (token :: next :: tokens)))
      with (withoutQuotes token ++ " "
              ++ join " " (map withoutQuotes (next :: tokens)))%string.
    unfold withoutQuotes at 1. rewrite replaceAll_app.
    fold (withoutQuotes (quoteArg token)). rewrite withoutQuotes_quoteArg.
    f_equal.
    change (" " ++ join " " (map quoteArg (next :: tokens)))%string
      with (String " "%char (join " " (map quoteArg (next :: tokens)))).
    cbn [replaceAll Ascii.eqb Bool.eqb].
    fold (withoutQuotes (join " " (map quoteArg (next :: tokens)))).
    now rewrite IH.
Qed.

(** ** The loader, further *)

(** [ensureStringArray] accepts exactly the arrays whose elements are all
    strings, the empty array among them, and hands back the elements as they
    are; every other value, an array with one non-string element included,
    is refused. *)
Theorem ensureStringArray_accepts (v : Value) :
  (forall items,
      ensureStringArray v = Some items <->
      v = VArray items /\ Forall isString items)
  /\ (ensureStringArray v = None <-> ~ StringArray v)
  /\ ensureStringArray (VArray []) = Some [].
Proof.
  split; [| split].
  - intros items. apply ensureStringArray_Some.
  - apply ensureStringArray_None.
  - reflexivity.
Qed.

Lemma own_extra_key (before after : list (string * Value))
  (k key : string) (v : Value) :
  k <> key ->
  own (before ++ (k, v) :: after) key = own (before ++ after) key.
Proof.
  intros Hne. induction before as [|[k' v'] before IH].
  - cbn [app own]. destruct (own after key); [reflexivity|].
    destruct (String.eqb_spec k key); [contradiction | reflexivity].
  - cbn [app own]. now rewrite IH.
Qed.

Lemma loadConfig_same_fields {World : Type}
  (h1 h2 : Host) (cwd1 cwd2 : string) (logger : option (LoggerLike World))
  (w : World) (raw1 raw2 : string) (doc1 doc2 : Value) :
  fs_existsSync h1 (path_join h1 cwd1 CONFIG_FILENAME) = true ->
  fs_readFileSync h1 (path_join h1 cwd1 CONFIG_FILENAME) = Normal raw1 ->
  JSON_parse h1 raw1 = Normal doc1 ->
  fs_existsSync h2 (path_join h2 cwd2 CONFIG_FILENAME) = true ->
  fs_readFileSync h2 (path_join h2 cwd2 CONFIG_FILENAME) = Normal raw2 ->
  JSON_parse h2 raw2 = Normal doc2 ->
  getProp doc1 "defaultTool" = getProp doc2 "defaultTool" ->
  getProp doc1 "defaultFlags" = getProp doc2 "defaultFlags" ->
  loadConfig h1 cwd1 logger w = loadConfig h2 cwd2 logger w.
Proof.
  intros Hex1 Hread1 Hparse1 Hex2 Hread2 Hparse2 Ht Hf.
  destruct (getProp doc1 "defaultTool") as [t|e] eqn:Ht1.
  - destruct (getProp_total doc1 t "defaultTool" "defaultFlags" Ht1) as [f Hf1].
    rewrite (loadConfig_parsed h1 cwd1 logger w raw1 doc1 t f) by assumption.
    rewrite (loadConfig_parsed h2 cwd2 logger w raw2 doc2 t f);
      try assumption; try reflexivity; congruence.
  - rewrite (loadConfig_property_failure h1 cwd1 logger w raw1 doc1 e)
      by assumption.
    rewrite (loadConfig_property_failure h2 cwd2 logger w raw2 doc2 e);
      try assumption; try reflexivity; congruence.
Qed.

(** A key of the document other than [defaultTool] and [defaultFlags] is
    ignored: with or without it the loader returns the same configuration
    and gives the same warnings. *)
Theorem loadConfig_ignores_unknown_keys {World : Type}
  (h1 h2 : Host) (cwd1 cwd2 : string) (logger : option (LoggerLike World))
  (w : World) (raw1 raw2 : string)
  (before after : list (string * Value)) (k : string) (v : Value) :
  fs_existsSync h1 (path_join h1 cwd1 CONFIG_FILENAME) = true ->
  fs_readFileSync h1 (path_join h1 cwd1 CONFIG_FILENAME) = Normal raw1 ->
  JSON_parse h1 raw1 = Normal (VObject (before ++ after)) ->
  fs_existsSync h2 (path_join h2 cwd2 CONFIG_FILENAME) = true ->
  fs_readFileSync h2 (path_join h2 cwd2 CONFIG_FILENAME) = Normal raw2 ->
  JSON_parse h2 raw2 = Normal (VObject (before ++ (k, v) :: after)) ->
  k <> "defaultTool" ->
  k <> "defaultFlags" ->
  loadConfig h1 cwd1 logger w = loadConfig h2 cwd2 logger w.
Proof.
  intros Hex1 Hread1 Hparse1 Hex2 Hread2 Hparse2 Hk1 Hk2.
  apply (loadConfig_same_fields h1 h2 cwd1 cwd2 logger w raw1 raw2
           (VObject (before ++ after)) (VObject (before ++ (k, v) :: after)));
    try assumption; cbn [getProp]; now rewrite own_extra_key.
Qed.

Lemma loadConfig_ignores_unknown_keys_witness :
  loadConfig cursorProject "/proj" (Some recorder) []
  = loadConfig extraKeyProject "/proj" (Some recorder) [].
Proof.
  eapply (loadConfig_ignores_unknown_keys
            cursorProject extraKeyProject "/proj" "/proj" (Some recorder) []
            _ _
           [("defaultTool", VString "cursor")]
           [("defaultFlags", VArray [VString "--model"; VString "claude-3"])]
           "editor" (VString "vim"));
    solve [reflexivity | discriminate].
Defined.

Lemma loadConfig_via_recorder {World : Type}
  (h : Host) (cwd : string) (logger : option (LoggerLike World)) (w : World) :
  loadConfig h cwd logger w
  = (fst (loadConfig h cwd (Some recorder) []),
     notifyAll logger (snd (loadConfig h cwd (Some recorder) [])) w)
  /\ length (snd (loadConfig h cwd (Some recorder) [])) <= 2
  /\ notifyAll (@None (LoggerLike World))
       (snd (loadConfig h cwd (Some recorder) [])) w = w.
Proof.
  assert (Hnone : forall msgs, notifyAll (@None (LoggerLike World)) msgs w = w).
  { intros msgs. unfold notifyAll. induction msgs; [reflexivity | assumption]. }
  split; [| split; [| apply Hnone]].
  - destruct (fs_existsSync h (path_join h cwd CONFIG_FILENAME)) eqn:Hex.
    2: { now rewrite !loadConfig_missing by assumption. }
    destruct (fs_readFileSync h (path_join h cwd CONFIG_FILENAME))
      as [raw|e] eqn:Hread.
    2: { rewrite (loadConfig_read_failure h cwd logger w e) by assumption.
         now rewrite (loadConfig_read_failure h cwd (Some recorder) [] e)
           by assumption. }
    destruct (JSON_parse h raw) as [doc|e] eqn:Hparse.
    2: { rewrite (loadConfig_parse_failure h cwd logger w raw e) by assumption.
         now rewrite (loadConfig_parse_failure h cwd (Some recorder) [] raw e)
           by assumption. }
    destruct (getProp doc "defaultTool") as [t|e] eqn:Ht.
    2: { rewrite (loadConfig_property_failure h cwd logger w raw doc e)
           by assumption.
         now rewrite (loadConfig_property_failure
                        h cwd (Some recorder) [] raw doc e) by assumption. }
    destruct (getProp_total doc t "defaultTool" "defaultFlags" Ht) as [f Hf].
    rewrite (loadConfig_parsed h cwd logger w raw doc t f) by assumption.
    rewrite (loadConfig_parsed h cwd (Some recorder) [] raw doc t f)
      by assumption.
    cbn [fst snd]. f_equal.
    destruct t as [| | b | n | s | items | props];
      try (destruct (ensureStringArray f); [reflexivity|];
           destruct f; reflexivity).
    destruct (normalizeToolKey (Str s)); [| destruct (String.eqb s "")];
      (destruct (ensureStringArray f); [reflexivity|]; destruct f; reflexivity).
  - destruct (fs_existsSync h (path_join h cwd CONFIG_FILENAME)) eqn:Hex.
    2: { rewrite loadConfig_missing by assumption. cbn. lia. }
    destruct (fs_readFileSync h (path_join h cwd CONFIG_FILENAME))
      as [raw|e] eqn:Hread.
    2: { rewrite (loadConfig_read_failure h cwd (Some recorder) [] e)
           by assumption. cbn. lia. }
    destruct (JSON_parse h raw) as [doc|e] eqn:Hparse.
    2: { rewrite (loadConfig_parse_failure h cwd (Some recorder) [] raw e)
           by assumption. cbn. lia. }
    destruct (getProp doc "defaultTool") as [t|e] eqn:Ht.
    2: { rewrite (loadConfig_property_failure
                    h cwd (Some recorder) [] raw doc e) by assumption.
         cbn. lia. }
    destruct (getProp_total doc t "defaultTool" "defaultFlags" Ht) as [f Hf].
    rewrite (loadConfig_parsed h cwd (Some recorder) [] raw doc t f)
      by assumption.
    cbn [snd].
    destruct t as [| | b | n | s | items | props];
      try (destruct (ensureStringArray f); [cbn; lia|];
           destruct f; cbn; lia).
    destruct (normalizeToolKey (Str s)); [| destruct (String.eqb s "")];
      (destruct (ensureStringArray f); [cbn; lia|]; destruct f; cbn; lia).
Qed.

Lemma loadConfig_tool_source {World : Type}
  (h : Host) (cwd : string) (logger : option (LoggerLike World)) (w w' : World)
  (c : AiSwitchConfig) (key : string) :
  loadConfig h cwd logger w = (Normal c, w') ->
  defaultTool c = Some key ->
  exists s, normalizeToolKey (Str s) = Some key.
Proof.
  intros Hrun Hkey.
  destruct (fs_existsSync h (path_join h cwd CONFIG_FILENAME)) eqn:Hex.
  2: { rewrite loadConfig_missing in Hrun by assumption.
       injection Hrun as <- _. discriminate. }
  destruct (fs_readFileSync h (path_join h cwd CONFIG_FILENAME))
    as [raw|e] eqn:Hread.
  2: { rewrite (loadConfig_read_failure h cwd logger w e) in Hrun by assumption.
       injection Hrun as <- _. discriminate. }
  destruct (JSON_parse h raw) as [doc|e] eqn:Hparse.
  2: { rewrite (loadConfig_parse_failure h cwd logger w raw e) in Hrun
         by assumption.
       injection Hrun as <- _. discriminate. }
  destruct (getProp doc "defaultTool") as [t|e] eqn:Ht.
  2: { rewrite (loadConfig_property_failure h cwd logger w raw doc e) in Hrun
         by assumption.
       injection Hrun as <- _. discriminate. }
  destruct (getProp_total doc t "defaultTool" "defaultFlags" Ht) as [f Hf].
  rewrite (loadConfig_parsed h cwd logger w raw doc t f) in Hrun by assumption.
  injection Hrun as <- _. cbn [defaultTool] in Hkey.
  destruct t; try discriminate. now exists s.
Qed.

(** A [defaultTool] stored by the loader is in canonical form: it is
    lower-case, it is not empty, and [normalizeToolKey] maps it to itself,
    so a caller that normalizes it again gets the same key. *)
Theorem loadConfig_defaultTool_canonical {World : Type}
  (h : Host) (cwd : string) (logger : option (LoggerLike World)) (w w' : World)
  (c : AiSwitchConfig) (key : string) :
  loadConfig h cwd logger w = (Normal c, w') ->
  defaultTool c = Some key ->
  key <> "" /\ toLowerCase key = key /\ normalizeToolKey (Str key) = Some key.
Proof.
  intros Hrun Hkey.
  destruct (loadConfig_tool_source h cwd logger w w' c key Hrun Hkey)
    as [s Hs].
  destruct (normalizeToolKey_fixed _ _ Hs) as [Hfix Hlow].
  repeat split; try assumption.
  intros ->. apply normalizeToolKey_not_empty in Hs. discriminate.
Qed.

Lemma loadConfig_defaultTool_canonical_witness :
  "claude" <> ""
  /\ toLowerCase "claude" = "claude"
  /\ normalizeToolKey (Str "claude") = Some "claude".
Proof.
  apply (loadConfig_defaultTool_canonical
           claudeProject "/proj" (Some recorder) [] []
           {| defaultTool := Some "claude";
              defaultFlags := Some [VString "--model"; VString "claude-3"] |}
           "claude");
    reflexivity.
Defined.

(** * Properties of [src/index.ts] *)

Section CliFacts.

Import Cli.

Lemma quiet_app (a b : list Event) : quiet a -> quiet b -> quiet (a ++ b).
Proof. unfold quiet. intros Ha Hb. now rewrite forallb_app, Ha, Hb. Qed.

Lemma silent_app (a b : list Event) : silent a -> silent b -> silent (a ++ b).
Proof. unfold silent. intros Ha Hb. now rewrite forallb_app, Ha, Hb. Qed.

Lemma bind_events {A B : Type} (m : Run A) (k : A -> Run B)
  (P : list Event -> Prop) :
  (forall a b, P a -> P b -> P (a ++ b)) ->
  P (snd m) -> (forall a, P (snd (k a))) -> P (snd (Cli.bind m k)).
Proof.
  intros Happ Hm Hk. destruct m as [[a|code|message|] events]; cbn in *;
    try assumption.
  specialize (Hk a). destruct (k a) as [o more]. cbn in *. now apply Happ.
Qed.

Lemma notifyAll_console (messages : list string) (events : list Event) :
  notifyAll (Some console) messages events
  = events ++ map ConsoleWarn messages.
Proof.
  unfold notifyAll. revert events.
  induction messages as [|m messages IH]; intros events; cbn.
  - now rewrite app_nil_r.
  - rewrite IH. cbn. now rewrite <- app_assoc.
Qed.

Lemma loadConfig_returns {World : Type}
  (h : Host) (cwd : string) (logger : option (LoggerLike World)) (w : World) :
  exists c, fst (loadConfig h cwd logger w) = Normal c.
Proof.
  destruct (fs_existsSync h (path_join h cwd CONFIG_FILENAME)) eqn:Hex.
  2: { rewrite loadConfig_missing by assumption. now eexists. }
  destruct (fs_readFileSync h (path_join h cwd CONFIG_FILENAME))
    as [raw|e] eqn:Hread.
  2: { rewrite (loadConfig_read_failure h cwd logger w e) by assumption.
       now eexists. }
  destruct (JSON_parse h raw) as [doc|e] eqn:Hparse.
  2: { rewrite (loadConfig_parse_failure h cwd logger w raw e) by assumption.
       now eexists. }
  destruct (getProp doc "defaultTool") as [t|e] eqn:Ht.
  2: { rewrite (loadConfig_property_failure h cwd logger w raw doc e)
         by assumption. now eexists. }
  destruct (getProp_total doc t "defaultTool" "defaultFlags" Ht) as [f Hf].
  rewrite (loadConfig_parsed h cwd logger w raw doc t f) by assumption.
  now eexists.
Qed.

(** Loading the project configuration at start-up always succeeds and does
    nothing but print warnings. *)
Lemma loadProjectConfig_warns_only (p : Process) :
  exists c messages,
    loadProjectConfig p = (Done c, map ConsoleWarn messages)
    /\ fst (loadConfig (host p) (process_cwd p) (Some console) []) = Normal c.
Proof.
  unfold loadProjectConfig.
  destruct (loadConfig_via_recorder (host p) (process_cwd p) (Some console) [])
    as [Hrun _].
  destruct (loadConfig_returns (host p) (process_cwd p) (Some recorder) [])
    as [c Hc].
  rewrite Hrun, Hc, notifyAll_console. cbn [app].
  exists c, (snd (loadConfig (host p) (process_cwd p) (Some recorder) [])).
  split; reflexivity.
Qed.

Lemma map_ConsoleWarn_quiet (messages : list string) :
  quiet (map ConsoleWarn messages) /\ silent (map ConsoleWarn messages).
Proof.
  unfold quiet, silent. split; induction messages; cbn; auto.
Qed.

End CliFacts.

Section CliTheorems.

Import Cli.

(** In a dry run [launch] prints the command line and returns: it starts no
    program, asks nothing and does not exit the process.  The line printed
    is the formatted command of the tool's executable with the configured
    flags followed by the pass-through arguments. *)
Theorem launch_dry_run (p : Process) (toolKey : string) (tool : ToolDefinition)
  (options : LaunchOptions) :
  getToolDefinition toolKey = Some tool ->
  dryRun options = true ->
  exists notes args,
    launch p toolKey options
    = (Done tt,
       notes ++ [ConsoleLog CyanBright
                   ("> " ++ formatShellCommand (bin tool) args)])
    /\ quiet (snd (launch p toolKey options))
    /\ silent (snd (launch p toolKey options))
    /\ (yolo options = false ->
        notes = [] /\ args = flagsOrEmpty (config options) ++ passthroughArgs (argv options)).
Proof.
  intros Htool Hdry. unfold launch. rewrite Htool, Hdry.
  destruct (yolo options).
  - destruct (truthyKey (selectYoloFlag tool)) eqn:Hflag; cbn [negb].
    + eexists [_], _. cbn. repeat split; discriminate.
    + eexists [_; _], _. cbn. repeat split; discriminate.
  - exists [], (flagsOrEmpty (config options) ++ passthroughArgs (argv options)).
    cbn. repeat split.
Qed.

(** Outside a dry run [launch] starts exactly one program: the tool's
    executable, with the argument vector whose formatted form it has just
    printed, through a shell only on [win32].  The process then exits with
    the program's exit code, with 0 when there is none, and with 1 after an
    error message when the program could not be started.  Without [yolo]
    the arguments are the configured flags followed by the pass-through
    arguments; with [yolo] the first flag of the tool, when it has a
    non-empty one, comes before them. *)
Theorem launch_runs_what_it_prints (p : Process) (toolKey : string)
  (tool : ToolDefinition) (options : LaunchOptions) :
  getToolDefinition toolKey = Some tool ->
  dryRun options = false ->
  exists notes args code after,
    launch p toolKey options
    = (Exit code,
       notes
         ++ [ConsoleLog CyanBright ("> " ++ formatShellCommand (bin tool) args);
             Execa (bin tool) args (String.eqb (process_platform (host p)) "win32")]
         ++ after)
    /\ quiet notes /\ quiet after
    /\ (yolo options = false ->
        args = flagsOrEmpty (config options) ++ passthroughArgs (argv options))
    /\ (forall first rest,
           yolo options = true -> yoloFlags tool = Some (first :: rest) ->
           first <> "" ->
           args = first :: flagsOrEmpty (config options)
                    ++ passthroughArgs (argv options))
    /\ (forall c,
           execa p (bin tool) args
             (String.eqb (process_platform (host p)) "win32") = Normal (Some c) ->
           code = c /\ after = [])
    /\ (execa p (bin tool) args
          (String.eqb (process_platform (host p)) "win32") = Normal None ->
        code = 0%Z /\ after = [])
    /\ (forall message,
           execa p (bin tool) args
             (String.eqb (process_platform (host p)) "win32") = Throw message ->
           code = 1%Z
           /\ after = [ConsoleError Red
                         ("Failed to launch " ++ pretty tool ++ ": " ++ message)]).
Proof.
  intros Htool Hdry. unfold launch. rewrite Htool, Hdry.
  unfold os_platform.
  set (shell := String.eqb (process_platform (host p)) "win32").
  set (flags := flagsOrEmpty (config options)).
  set (rest_args := passthroughArgs (argv options)).
  assert (Hyolo : forall first rest,
             yoloFlags tool = Some (first :: rest) -> first <> "" ->
             selectYoloFlag tool = Some first
             /\ truthyKey (Some first) = true).
  { intros first rest Hfl Hne. unfold selectYoloFlag. rewrite Hfl.
    split; [reflexivity|]. cbn.
    destruct (String.eqb_spec first ""); [contradiction | reflexivity]. }
  destruct (yolo options).
  - destruct (truthyKey (selectYoloFlag tool)) eqn:Hflag; cbn [negb].
    + set (args := (match selectYoloFlag tool with
                    | Some flag => [flag]
                    | None => []
                    end ++ flags ++ rest_args)).
      destruct (execa p (bin tool) args shell) as [[c|]|message] eqn:Hexec.
      * exists [ConsoleLog BoldRed
                  "YOLO mode bypasses approvals and sandboxing. Proceed with caution."],
          args, c, [].
        cbn. fold args. rewrite Hexec. cbn.
        repeat apply conj; try reflexivity; try discriminate.
        -- intros first rest _ Hfl Hne.
           destruct (Hyolo first rest Hfl Hne) as [Hsel _].
           subst args. now rewrite Hsel.
        -- intros c' [= <-]. split; reflexivity.
      * exists [ConsoleLog BoldRed
                  "YOLO mode bypasses approvals and sandboxing. Proceed with caution."],
          args, 0%Z, [].
        cbn. fold args. rewrite Hexec. cbn.
        repeat apply conj; try reflexivity; try discriminate.
        -- intros first rest _ Hfl Hne.
           destruct (Hyolo first rest Hfl Hne) as [Hsel _].
           subst args. now rewrite Hsel.
        -- intros _. split; reflexivity.
      * exists [ConsoleLog BoldRed
                  "YOLO mode bypasses approvals and sandboxing. Proceed with caution."],
          args, 1%Z,
          [ConsoleError Red
             ("Failed to launch " ++ pretty tool ++ ": " ++ message)].
        cbn. fold args. rewrite Hexec. cbn.
        repeat apply conj; try reflexivity; try discriminate.
        -- intros first rest _ Hfl Hne.
           destruct (Hyolo first rest Hfl Hne) as [Hsel _].
           subst args. now rewrite Hsel.
        -- intros m [= <-]. split; reflexivity.
    + set (args := (flags ++ rest_args)).
      assert (Hno : forall first rest,
                 yoloFlags tool = Some (first :: rest) -> first <> "" -> False).
      { intros first rest Hfl Hne.
        destruct (Hyolo first rest Hfl Hne) as [Hsel Htr].
        rewrite Hsel in Hflag. congruence. }
      destruct (execa p (bin tool) args shell) as [[c|]|message] eqn:Hexec.
      * eexists [_; _], args, c, [].
        cbn. fold args. rewrite Hexec. cbn.
        repeat apply conj; try reflexivity; try discriminate.
        -- intros first rest _ Hfl Hne. exfalso. eapply Hno; eassumption.
        -- intros c' [= <-]. split; reflexivity.
      * eexists [_; _], args, 0%Z, [].
        cbn. fold args. rewrite Hexec. cbn.
        repeat apply conj; try reflexivity; try discriminate.
        -- intros first rest _ Hfl Hne. exfalso. eapply Hno; eassumption.
        -- intros _. split; reflexivity.
      * eexists [_; _], args, 1%Z, [_].
        cbn. fold args. rewrite Hexec. cbn.
        repeat apply conj; try reflexivity; try discriminate.
        -- intros first rest _ Hfl Hne. exfalso. eapply Hno; eassumption.
        -- intros m [= <-]. split; reflexivity.
  - set (args := (flags ++ rest_args)).
    destruct (execa p (bin tool) args shell) as [[c|]|message] eqn:Hexec.
    + exists [], args, c, [].
      cbn. fold args. rewrite Hexec. cbn.
      repeat apply conj; try reflexivity; try discriminate.
      intros c' [= <-]. split; reflexivity.
    + exists [], args, 0%Z, [].
      cbn. fold args. rewrite Hexec. cbn.
      repeat apply conj; try reflexivity; try discriminate.
      intros _. split; reflexivity.
    + eexists [], args, 1%Z, [_].
      cbn. fold args. rewrite Hexec. cbn.
      repeat apply conj; try reflexivity; try discriminate.
      intros m [= <-]. split; reflexivity.
Qed.

(** With [dryRun] set, [ensureInstalled] answers yes without asking and
    without starting anything: it prints at most the note that the tool is
    missing. *)
Theorem ensureInstalled_dry_run (p : Process) (toolKey : string)
  (tool : ToolDefinition) :
  getToolDefinition toolKey = Some tool ->
  exists events,
    ensureInstalled p toolKey true = (Done true, events)
    /\ quiet events /\ silent events
    /\ (isInstalled p (bin tool) = true -> events = [])
    /\ (isInstalled p (bin tool) = false ->
        events = [ConsoleLog Yellow
                    ("[dry-run] " ++ pretty tool
                       ++ " is not installed. Would prompt to install.")]).
Proof.
  intros Htool. unfold ensureInstalled. rewrite Htool.
  destruct (isInstalled p (bin tool)); eexists; cbn;
    repeat apply conj; try reflexivity; try discriminate.
Qed.

(** A tool that [which] finds is never installed again: nothing is printed,
    asked or started, dry run or not. *)
Theorem ensureInstalled_already_installed (p : Process) (toolKey : string)
  (tool : ToolDefinition) (dry : bool) (path : string) :
  getToolDefinition toolKey = Some tool ->
  which p (bin tool) = Normal path ->
  ensureInstalled p toolKey dry = (Done true, []).
Proof.
  intros Htool Hwhich. unfold ensureInstalled, isInstalled.
  now rewrite Htool, Hwhich.
Qed.

(** When the tool is missing and the user picks Cancel (the empty command),
    [ensureInstalled] answers no and starts nothing. *)
Theorem ensureInstalled_cancel (p : Process) (toolKey : string)
  (tool : ToolDefinition) :
  getToolDefinition toolKey = Some tool ->
  isInstalled p (bin tool) = false ->
  answerInstall p (pretty tool ++ " is not installed. Install now?")
    (getInstallerChoices (host p) tool None) = value CANCEL_CHOICE ->
  exists events,
    ensureInstalled p toolKey false = (Done false, events) /\ quiet events.
Proof.
  intros Htool Hmissing Hanswer. unfold ensureInstalled.
  rewrite Htool, Hmissing. cbn [Cli.bind emit].
  cbn [value CANCEL_CHOICE] in Hanswer. rewrite Hanswer.
  eexists. cbn. split; reflexivity.
Qed.

(** The only command [ensureInstalled] ever hands to the shell is the
    answer of the install prompt; when that answer is one of the values
    offered, it is the command of one of the tool's own installers, and the
    result is yes exactly when that command succeeded. *)
Theorem ensureInstalled_runs_offered_command (p : Process) (toolKey : string)
  (tool : ToolDefinition) (dry : bool) (e : Event) :
  getToolDefinition toolKey = Some tool ->
  In (answerInstall p (pretty tool ++ " is not installed. Install now?")
        (getInstallerChoices (host p) tool None))
     (map value (getInstallerChoices (host p) tool None)) ->
  In e (snd (ensureInstalled p toolKey dry)) ->
  spawns e = true ->
  exists installer,
    In installer (installers tool)
    /\ e = ExecaCommand (cmd installer)
    /\ (fst (ensureInstalled p toolKey dry) = Done true
        <-> exists u, execaCommand p (cmd installer) = Normal u).
Proof.
  intros Htool Hoffered Hin Hspawn. unfold ensureInstalled in *.
  rewrite Htool in *.
  destruct (isInstalled p (bin tool)); [destruct Hin|].
  destruct dry.
  { cbn in Hin. destruct Hin as [<-|[]]. discriminate. }
  set (choices := getInstallerChoices (host p) tool None) in *.
  set (answer := answerInstall p _ choices) in *.
  cbn [Cli.bind emit] in *.
  destruct (String.eqb_spec answer "") as [Hempty|Hne].
  { cbn in Hin. destruct Hin as [<-|[<-|[]]]; discriminate. }
  apply in_map_iff in Hoffered. destruct Hoffered as (choice & Hval & Hchoice).
  apply getInstallerChoices_In in Hchoice.
  destruct Hchoice as [-> | (installer & Hinst & _ & Hcmd)].
  { cbn in Hval. congruence. }
  exists installer. split; [assumption|].
  assert (Hanswer : answer = cmd installer) by congruence.
  rewrite <- Hanswer.
  destruct (execaCommand p answer) as [u|message] eqn:Hexec;
    cbn in Hin |- *.
  - split.
    + destruct Hin as [<-|[<-|[<-|[<-|[<-|[]]]]]]; try discriminate. reflexivity.
    + split; [intros _; now exists u | reflexivity].
  - split.
    + destruct Hin as [<-|[<-|[<-|[<-|[<-|[<-|[]]]]]]]; try discriminate.
      reflexivity.
    + split; [discriminate | intros [u Hu]; discriminate].
Qed.

(** An explicit tool argument decides alone: a known one is returned in
    canonical form whatever the configuration says, and an unknown one ends
    the process with code 1 after the message ["Unknown tool: <argument>"],
    also when the configuration names a default.  Without an argument, or
    with an empty one, the configured default is returned, if any. *)
Theorem resolveToolFromInput_precedence (config : AiSwitchConfig) :
  (forall s key,
      normalizeToolKey (Str s) = Some key ->
      resolveToolFromInput (Str s) config = (Done (Some key), []))
  /\ (forall s,
         s <> "" -> normalizeToolKey (Str s) = None ->
         resolveToolFromInput (Str s) config
         = (Exit 1%Z, [ConsoleError Red ("Unknown tool: " ++ s)]))
  /\ (forall key,
         defaultTool config = Some key -> key <> "" ->
         resolveToolFromInput Absent config = (Done (Some key), [])
         /\ resolveToolFromInput (Str "") config = (Done (Some key), []))
  /\ (defaultTool config = None ->
      resolveToolFromInput Absent config = (Done None, [])
      /\ resolveToolFromInput (Str "") config = (Done None, [])).
Proof.
  unfold resolveToolFromInput. repeat apply conj.
  - intros s key Hkey.
    assert (Hs : truthy (Str s) = true).
    { apply normalizeToolKey_Some in Hkey.
      destruct Hkey as (s' & [= <-] & Hne & _). cbn.
      destruct (String.eqb_spec s ""); [contradiction | reflexivity]. }
    rewrite Hs, Hkey. cbn [truthyKey].
    now rewrite (normalizeToolKey_not_empty _ _ Hkey).
  - intros s Hne Hnone.
    assert (Hs : truthy (Str s) = true).
    { cbn. destruct (String.eqb_spec s ""); [contradiction | reflexivity]. }
    rewrite Hs, Hnone. reflexivity.
  - intros key Hkey Hne. cbn [truthy String.eqb negb]. rewrite Hkey.
    cbn [truthyKey].
    destruct (String.eqb_spec key ""); [contradiction|]. split; reflexivity.
  - intros Hnone. cbn [truthy String.eqb negb]. rewrite Hnone.
    split; reflexivity.
Qed.

(** [ai yolo] with a tool name that does not normalize fails with the error
    ["Tool key is required"]: after the loader's warnings nothing is
    printed, asked or started, dry run or not. *)
Theorem runYoloCommand_unknown_tool (p : Process) (toolInput : string)
  (dry : bool) :
  normalizeToolKey (Str toolInput) = None ->
  exists warnings,
    runYoloCommand p toolInput dry
    = (Raise "Tool key is required", map ConsoleWarn warnings).
Proof.
  intros Hnone. unfold runYoloCommand.
  destruct (loadProjectConfig_warns_only p) as (c & warnings & Hload & _).
  rewrite Hload, Hnone. exists warnings. cbn. now rewrite app_nil_r.
Qed.

Lemma resolveToolFromInput_unknown (config : AiSwitchConfig) (s : string) :
  s <> "" -> normalizeToolKey (Str s) = None ->
  resolveToolFromInput (Str s) config
  = (Exit 1%Z, [ConsoleError Red ("Unknown tool: " ++ s)]).
Proof.
  intros Hne Hnone. unfold resolveToolFromInput.
  assert (Hs : truthy (Str s) = true).
  { cbn. destruct (String.eqb_spec s ""); [contradiction | reflexivity]. }
  rewrite Hs, Hnone. reflexivity.
Qed.

(** [ai use] with an explicit tool name that does not normalize ends the
    process with code 1: after the loader's warnings it prints
    ["Unknown tool: <name>"] and nothing is asked or started, whatever
    default the configuration holds. *)
Theorem runUseCommand_unknown_tool (p : Process) (toolInput : string)
  (dry : bool) :
  toolInput <> "" ->
  normalizeToolKey (Str toolInput) = None ->
  exists warnings,
    runUseCommand p (Str toolInput) dry
    = (Exit 1%Z,
       map ConsoleWarn warnings
         ++ [ConsoleError Red ("Unknown tool: " ++ toolInput)]).
Proof.
  intros Hne Hnone. unfold runUseCommand.
  destruct (loadProjectConfig_warns_only p) as (c & warnings & Hload & _).
  rewrite Hload. cbn [Cli.bind].
  rewrite (resolveToolFromInput_unknown c toolInput Hne Hnone).
  exists warnings. reflexivity.
Qed.

Lemma ensureInstalled_dry_quiet (p : Process) (toolKey : string) :
  (getToolDefinition toolKey = None
   /\ ensureInstalled p toolKey true = (OffCatalog, []))
  \/ (exists events,
         getToolDefinition toolKey <> None
         /\ ensureInstalled p toolKey true = (Done true, events)
         /\ quiet events /\ silent events).
Proof.
  unfold ensureInstalled.
  destruct (getToolDefinition toolKey) as [tool|]; [right | left; now split].
  destruct (isInstalled p (bin tool)); eexists; cbn;
    repeat apply conj; try reflexivity; discriminate.
Qed.

Lemma launch_dry_quiet (p : Process) (toolKey : string)
  (options : LaunchOptions) :
  getToolDefinition toolKey <> None ->
  dryRun options = true ->
  exists events,
    launch p toolKey options = (Done tt, events)
    /\ quiet events /\ silent events.
Proof.
  intros Htool Hdry. unfold launch.
  destruct (getToolDefinition toolKey) as [tool|]; [|contradiction].
  rewrite Hdry.
  destruct (yolo options);
    [destruct (truthyKey (selectYoloFlag tool))|];
    eexists; cbn; repeat apply conj; reflexivity.
Qed.

Lemma resolveToolFromInput_cases (toolInput : MaybeString)
  (c : AiSwitchConfig) :
  (exists key,
      resolveToolFromInput toolInput c = (Done (Some key), [])
      /\ truthyKey (Some key) = true)
  \/ resolveToolFromInput toolInput c = (Done None, [])
  \/ (exists text,
         resolveToolFromInput toolInput c = (Exit 1%Z, [ConsoleError Red text])
         /\ truthy toolInput = true
         /\ normalizeToolKey toolInput = None).
Proof.
  unfold resolveToolFromInput.
  destruct (truthy toolInput) eqn:Htruthy.
  - destruct (normalizeToolKey toolInput) as [key|] eqn:Hkey.
    + left. exists key. cbn [truthyKey].
      rewrite (normalizeToolKey_not_empty _ _ Hkey). split; reflexivity.
    + right. right. eexists. repeat split.
  - destruct (defaultTool c) as [key|]; [|right; left; reflexivity].
    cbn [truthyKey]. destruct (String.eqb key "") eqn:Hempty; cbn [negb].
    + right. left. reflexivity.
    + left. exists key. split; [reflexivity|].
      cbn [truthyKey]. now rewrite Hempty.
Qed.

Lemma requireToolKey_cases (tool : option string) :
  (exists key, requireToolKey tool = (Done key, []) /\ tool = Some key)
  \/ requireToolKey tool = (Raise "Tool key is required", []).
Proof.
  unfold requireToolKey. destruct tool as [key|]; [|now right].
  destruct (truthyKey (Some key)); cbn [negb]; [left | now right].
  now exists key.
Qed.

Lemma dry_tail (p : Process) (c : AiSwitchConfig) (toolKey : string) :
  let tail :=
    Cli.bind (ensureInstalled p toolKey true)
      (fun ready =>
         if negb ready then (if negb true then exit 1%Z else Cli.ret tt)
         else launch p toolKey
                {| dryRun := true; yolo := false; config := c;
                   argv := process_argv p |}) in
  (fst tail = OffCatalog \/ fst tail = Done tt) /\ quiet (snd tail).
Proof.
  intros tail. subst tail.
  destruct (ensureInstalled_dry_quiet p toolKey)
    as [[_ ->] | (events & Htool & -> & Hq & _)].
  - cbn. split; [now left | reflexivity].
  - cbn [Cli.bind negb].
    destruct (launch_dry_quiet p toolKey
                {| dryRun := true; yolo := false; config := c;
                   argv := process_argv p |} Htool eq_refl)
      as (more & -> & Hm & _).
    cbn. split; [now right | now apply quiet_app].
Qed.

(** A dry run of [ai use] that stays within the catalog starts no program,
    whatever the arguments, the configuration, the installed tools and the
    answers to the prompts are.  It returns normally, or ends with code 1
    because the tool argument is unknown, or fails with
    ["Tool key is required"] after the picker was shown; it never ends
    because a tool is missing. *)
Theorem runUseCommand_dry_run (p : Process) (toolInput : MaybeString) :
  fst (runUseCommand p toolInput true) <> OffCatalog ->
  quiet (snd (runUseCommand p toolInput true))
  /\ (fst (runUseCommand p toolInput true) = Done tt
      \/ (fst (runUseCommand p toolInput true) = Exit 1%Z
          /\ truthy toolInput = true
          /\ normalizeToolKey toolInput = None)
      \/ (fst (runUseCommand p toolInput true) = Raise "Tool key is required"
          /\ In (PromptPick "Pick a tool to launch:" TOOL_KEYS)
                (snd (runUseCommand p toolInput true)))).
Proof.
  unfold runUseCommand.
  destruct (loadProjectConfig_warns_only p) as (c & warnings & Hload & _).
  rewrite Hload. cbn [Cli.bind].
  destruct (map_ConsoleWarn_quiet warnings) as [Hwq _].
  destruct (resolveToolFromInput_cases toolInput c)
    as [(key & -> & Hkey) | [-> | (text & -> & Htruthy & Hnone)]].
  - cbn [Cli.bind]. rewrite Hkey. cbn [negb Cli.bind Cli.ret].
    match goal with
    | |- context [Cli.bind (ensureInstalled p key true) ?k] =>
        set (tail := Cli.bind (ensureInstalled p key true) k)
    end.
    assert (Ht : (fst tail = OffCatalog \/ fst tail = Done tt)
                 /\ quiet (snd tail)) by exact (dry_tail p c key).
    destruct tail as [o events]. cbn [fst snd app] in *.
    destruct Ht as [[-> | ->] Hq]; intros Hoff.
    + now contradiction Hoff.
    + split; [| now left]. now apply quiet_app.
  - cbn [Cli.bind emit truthyKey negb].
    destruct (requireToolKey_cases
                (normalizeToolKey
                   (Str (answerPick p "Pick a tool to launch:" TOOL_KEYS))))
      as [(key & -> & _) | ->].
    + cbn [Cli.bind Cli.ret].
      match goal with
      | |- context [Cli.bind (ensureInstalled p key true) ?k] =>
          set (tail := Cli.bind (ensureInstalled p key true) k)
      end.
      assert (Ht : (fst tail = OffCatalog \/ fst tail = Done tt)
                   /\ quiet (snd tail)) by exact (dry_tail p c key).
      destruct tail as [o events]. cbn [fst snd app] in *.
      destruct Ht as [[-> | ->] Hq]; intros Hoff.
      * now contradiction Hoff.
      * split; [| now left].
        apply quiet_app; [exact Hwq|].
        change (quiet ([PromptPick "Pick a tool to launch:" TOOL_KEYS] ++ events)).
        apply quiet_app; [reflexivity | exact Hq].
    + cbn [fst snd app]. intros _. split.
      * apply quiet_app; [exact Hwq | reflexivity].
      * right. right. split; [reflexivity|].
        apply in_or_app. right. now left.
  - cbn [fst snd]. intros _. split.
    + apply quiet_app; [exact Hwq | reflexivity].
    + right. left. repeat split; assumption.
Qed.

Lemma launch_dry_run_witness :
  exists notes args,
    launch (demoProcess macHost [] false "") "codex" (demoOptions true false)
    = (Done tt,
       notes ++ [ConsoleLog CyanBright
                   ("> " ++ formatShellCommand (bin codex) args)])
    /\ quiet (snd (launch (demoProcess macHost [] false "") "codex"
                     (demoOptions true false)))
    /\ silent (snd (launch (demoProcess macHost [] false "") "codex"
                      (demoOptions true false)))
    /\ (yolo (demoOptions true false) = false ->
        notes = []
        /\ args = flagsOrEmpty (config (demoOptions true false))
                    ++ passthroughArgs (argv (demoOptions true false))).
Proof.
  apply (launch_dry_run (demoProcess macHost [] false "") "codex" codex
           (demoOptions true false)); reflexivity.
Defined.

Lemma launch_runs_what_it_prints_witness :
  exists notes,
    launch (demoProcess macHost [] true "") "codex" (demoOptions false true)
    = (Exit 0%Z,
       notes
         ++ [ConsoleLog CyanBright "> codex --yolo --model gpt-5-codex --version";
             Execa "codex" ["--yolo"; "--model"; "gpt-5-codex"; "--version"]
               false]).
Proof.
  destruct (launch_runs_what_it_prints
              (demoProcess macHost [] true "") "codex" codex
              (demoOptions false true) eq_refl eq_refl)
    as (notes & args & code & after & Hrun & _ & _ & _ & Hyolo & Hcode & _).
  assert (Hargs : args = ["--yolo"; "--model"; "gpt-5-codex"; "--version"]).
  { apply (Hyolo "--yolo" ["--dangerously-bypass-approvals-and-sandbox"]);
      [reflexivity | reflexivity | discriminate]. }
  subst args.
  destruct (Hcode 0%Z eq_refl) as [-> ->].
  exists notes. exact Hrun.
Defined.

Lemma ensureInstalled_dry_run_witness :
  exists events,
    ensureInstalled (demoProcess macHost [] false "") "codex" true
    = (Done true, events)
    /\ quiet events /\ silent events
    /\ (isInstalled (demoProcess macHost [] false "") (bin codex) = true ->
        events = [])
    /\ (isInstalled (demoProcess macHost [] false "") (bin codex) = false ->
        events = [ConsoleLog Yellow
                    ("[dry-run] " ++ pretty codex
                       ++ " is not installed. Would prompt to install.")]).
Proof.
  apply (ensureInstalled_dry_run (demoProcess macHost [] false "") "codex" codex).
  reflexivity.
Defined.

Lemma ensureInstalled_already_installed_witness :
  ensureInstalled (demoProcess macHost [] true "") "codex" false
  = (Done true, []).
Proof.
  apply (ensureInstalled_already_installed
           (demoProcess macHost [] true "") "codex" codex false
           "/usr/local/bin/codex"); reflexivity.
Defined.

Lemma ensureInstalled_cancel_witness :
  exists events,
    ensureInstalled (demoProcess macHost [] false "") "codex" false
    = (Done false, events)
    /\ quiet events.
Proof.
  apply (ensureInstalled_cancel (demoProcess macHost [] false "") "codex" codex);
    reflexivity.
Defined.

Lemma ensureInstalled_runs_offered_command_witness :
  exists installer,
    In installer (installers codex)
    /\ ExecaCommand "brew install codex" = ExecaCommand (cmd installer)
    /\ (fst (ensureInstalled
               (demoProcess macHost [] false "brew install codex")
               "codex" false) = Done true
        <-> exists u,
              execaCommand (demoProcess macHost [] false "brew install codex")
                (cmd installer) = Normal u).
Proof.
  apply (ensureInstalled_runs_offered_command
           (demoProcess macHost [] false "brew install codex")
           "codex" codex false (ExecaCommand "brew install codex")).
  - reflexivity.
  - vm_compute. tauto.
  - vm_compute. tauto.
  - reflexivity.
Defined.

Lemma runYoloCommand_unknown_tool_witness :
  exists warnings,
    runYoloCommand (demoProcess cursorProject ["node"; "ai"; "yolo"; "cursor"]
                      true "")
      "cursor" false
    = (Raise "Tool key is required", map ConsoleWarn warnings).
Proof.
  apply (runYoloCommand_unknown_tool
           (demoProcess cursorProject ["node"; "ai"; "yolo"; "cursor"] true "")
           "cursor" false).
  reflexivity.
Defined.

Lemma runUseCommand_unknown_tool_witness :
  exists warnings,
    runUseCommand (demoProcess claudeProject ["node"; "ai"; "use"; "cursor"]
                     true "")
      (Str "cursor") false
    = (Exit 1%Z,
       map ConsoleWarn warnings ++ [ConsoleError Red "Unknown tool: cursor"]).
Proof.
  apply (runUseCommand_unknown_tool
           (demoProcess claudeProject ["node"; "ai"; "use"; "cursor"] true "")
           "cursor" false).
  - discriminate.
  - reflexivity.
Defined.

Lemma runUseCommand_dry_run_witness :
  quiet (snd (runUseCommand
                (demoProcess claudeProject
                   ["node"; "ai"; "--dry-run"; "use"; "--"; "--version"]
                   false "")
                Absent true)).
Proof.
  apply (runUseCommand_dry_run
           (demoProcess claudeProject
              ["node"; "ai"; "--dry-run"; "use"; "--"; "--version"] false "")
           Absent).
  vm_compute. discriminate.
Defined.

(** A dry run of [ai] in a project whose configuration names Claude, with
    the tool missing: the note, then the command that would be run. *)
Example runUseCommand_dry_run_trace :
  runUseCommand
    (demoProcess claudeProject
       ["node"; "ai"; "--dry-run"; "use"; "--"; "--version"] false "")
    Absent true
  = (Done tt,
     [ConsoleLog Yellow
        "[dry-run] Anthropic Claude Code is not installed. Would prompt to install.";
      ConsoleLog CyanBright "> claude --model claude-3 --version"]).
Proof. reflexivity. Qed.

Lemma stringsOf_strings (items : list Value) :
  Forall isString items -> map VString (stringsOf items) = items.
Proof.
  induction 1 as [|item items [s ->] _ IH]; [reflexivity|].
  cbn. unfold stringsOf in IH. now rewrite IH.
Qed.

(** The flags that the loader stores reach the launched program as they
    are: whatever the project and the command line, the argument vector of
    a launch without [yolo] is the stored flags, in their order, followed by
    the pass-through arguments. *)
Theorem launch_passes_loaded_flags (p : Process) (toolKey : string)
  (tool : ToolDefinition) (dry : bool) (c : AiSwitchConfig)
  (events : list Event) (flags : list Value) :
  loadProjectConfig p = (Done c, events) ->
  defaultFlags c = Some flags ->
  getToolDefinition toolKey = Some tool ->
  exists args,
    In (ConsoleLog CyanBright ("> " ++ formatShellCommand (bin tool) args))
       (snd (launch p toolKey
               {| dryRun := dry; yolo := false; config := c;
                  argv := process_argv p |}))
    /\ map VString args
       = flags ++ map VString (passthroughArgs (process_argv p))
    /\ (dry = false ->
        In (Execa (bin tool) args
              (String.eqb (process_platform (host p)) "win32"))
           (snd (launch p toolKey
                   {| dryRun := dry; yolo := false; config := c;
                      argv := process_argv p |}))).
Proof.
  intros Hload Hflags Htool.
  assert (Hstrings : Forall isString flags).
  { unfold loadProjectConfig in Hload.
    destruct (loadConfig (host p) (process_cwd p) (Some console) [])
      as [[c'|message] events'] eqn:Hrun; [|discriminate].
    injection Hload as -> _.
    now apply (loadConfig_returned_fields _ _ _ _ _ _ Hrun). }
  exists (stringsOf flags ++ passthroughArgs (process_argv p)).
  split; [| split].
  - unfold launch. rewrite Htool. unfold flagsOrEmpty. cbn. rewrite Hflags.
    destruct dry; cbn; [now left|].
    destruct (execa p (bin tool) _ _) as [[code|]|message]; cbn; now left.
  - now rewrite map_app, stringsOf_strings.
  - intros ->. unfold launch. rewrite Htool. unfold flagsOrEmpty. cbn.
    rewrite Hflags. unfold os_platform.
    destruct (execa p (bin tool) _ _) as [[code|]|message]; cbn;
      right; now left.
Qed.

Lemma launch_passes_loaded_flags_witness :
  exists args,
    In (ConsoleLog CyanBright ("> " ++ formatShellCommand (bin codex) args))
       (snd (launch
               (demoProcess claudeProject
                  ["node"; "ai"; "use"; "codex"; "--"; "-v"] true "")
               "codex"
               {| dryRun := false; yolo := false;
                  config :=
                    {| defaultTool := Some "claude";
                       defaultFlags :=
                         Some [VString "--model"; VString "claude-3"] |};
                  argv := ["node"; "ai"; "use"; "codex"; "--"; "-v"] |}))
    /\ map VString args
       = [VString "--model"; VString "claude-3"]
           ++ map VString
                (passthroughArgs ["node"; "ai"; "use"; "codex"; "--"; "-v"])
    /\ (false = false ->
        In (Execa (bin codex) args false)
           (snd (launch
                   (demoProcess claudeProject
                      ["node"; "ai"; "use"; "codex"; "--"; "-v"] true "")
                   "codex"
                   {| dryRun := false; yolo := false;
                      config :=
                        {| defaultTool := Some "claude";
                           defaultFlags :=
                             Some [VString "--model"; VString "claude-3"] |};
                      argv := ["node"; "ai"; "use"; "codex"; "--"; "-v"] |}))).
Proof.
  apply (launch_passes_loaded_flags
           (demoProcess claudeProject
              ["node"; "ai"; "use"; "codex"; "--"; "-v"] true "")
           "codex" codex false
           {| defaultTool := Some "claude";
              defaultFlags := Some [VString "--model"; VString "claude-3"] |}
           [] [VString "--model"; VString "claude-3"]);
    reflexivity.
Defined.

End CliTheorems.

(** * The loader and loggers that may throw *)

Lemma Raising_warn_opt_sink {World : Type}
  (logger : option (Raising.LoggerLike World)) (message : string) (w : World) :
  Raising.returns logger ->
  Raising.warn_opt logger message w
  = warn_opt (option_map sinkOf logger) message w.
Proof.
  destruct logger as [l|]; cbn; intros Hret; [|reflexivity].
  unfold warn_opt, notify. cbn. specialize (Hret message w).
  destruct (Raising.warn l message w) as [o w']. cbn in *. now subst.
Qed.

(** For a logger that returns, the loader is the loader of the sink. *)
Lemma Raising_loadConfig_sink {World : Type}
  (h : Host) (cwd : string) (logger : option (Raising.LoggerLike World))
  (w : World) :
  Raising.returns logger ->
  Raising.loadConfig h cwd logger w
  = loadConfig h cwd (option_map sinkOf logger) w.
Proof.
  intros Hret. unfold Raising.loadConfig, loadConfig.
  destruct (negb (fs_existsSync h (path_join h cwd CONFIG_FILENAME)));
    [reflexivity|].
  unfold tryCatch, bind, lift, ret.
  destruct (fs_readFileSync h (path_join h cwd CONFIG_FILENAME)) as [raw|e].
  2: { now rewrite Raising_warn_opt_sink. }
  destruct (JSON_parse h raw) as [doc|e].
  2: { now rewrite Raising_warn_opt_sink. }
  destruct (getProp doc "defaultTool") as [t|e].
  2: { now rewrite Raising_warn_opt_sink. }
  set (maybeTool := if String.eqb (typeof t) "string" then stringOf t
                    else Absent).
  destruct (normalizeToolKey (orUndefined maybeTool)) as [key|];
    [destruct (negb (String.eqb key ""))|];
    try destruct (truthy maybeTool);
    cbv beta iota zeta;
    rewrite ?Raising_warn_opt_sink by exact Hret;
    unfold warn_opt; cbv beta iota zeta;
    (destruct (getProp doc "defaultFlags") as [f|e];
     [| cbv beta iota zeta; rewrite ?Raising_warn_opt_sink by exact Hret;
        reflexivity]);
    (destruct (ensureStringArray f); [reflexivity|]);
    destruct f; cbv beta iota zeta;
    rewrite ?Raising_warn_opt_sink by exact Hret; reflexivity.
Qed.

Lemma notify_sink {World : Type}
  (logger : option (Raising.LoggerLike World)) (message : string) (w : World) :
  notify (option_map sinkOf logger) message w
  = snd (Raising.warn_opt logger message w).
Proof. destruct logger; reflexivity. Qed.

Lemma notifyAll_sink {World : Type}
  (logger : option (Raising.LoggerLike World)) (messages : list string)
  (w : World) :
  notifyAll (option_map sinkOf logger) messages w
  = Raising.deliverAll logger messages w.
Proof.
  unfold notifyAll, Raising.deliverAll. revert w.
  induction messages as [|m messages IH]; intros w; [reflexivity|].
  cbn [fold_left]. now rewrite notify_sink, IH.
Qed.

(** What the [catch] block does with any logger: when reading fails, [warn]
    is called once with the failure message; the loader returns the empty
    configuration when that call returns and throws what it throws. *)
Lemma Raising_loadConfig_read_failure {World : Type}
  (h : Host) (cwd : string) (logger : option (Raising.LoggerLike World))
  (w : World) (e : string) :
  fs_existsSync h (path_join h cwd CONFIG_FILENAME) = true ->
  fs_readFileSync h (path_join h cwd CONFIG_FILENAME) = Throw e ->
  Raising.loadConfig h cwd logger w
  = (match fst (Raising.warn_opt logger
                  ("Failed to load .ai-switch.json: " ++ e) w) with
     | Normal _ => Normal emptyConfig
     | Throw thrown => Throw thrown
     end,
     snd (Raising.warn_opt logger ("Failed to load .ai-switch.json: " ++ e) w)).
Proof.
  intros Hex Hread. unfold Raising.loadConfig. rewrite Hex.
  unfold tryCatch, bind, lift, ret. cbn [negb]. rewrite Hread.
  change ("Failed to load " ++ CONFIG_FILENAME ++ ": " ++ e)%string
    with ("Failed to load .ai-switch.json: " ++ e)%string.
  destruct (Raising.warn_opt logger _ w) as [[u|thrown] w']; reflexivity.
Qed.

(** C4, with a logger whose [warn] throws.  The claim says that [loadConfig]
    never raises to its caller, for every optional logger.  On a file that
    does not parse the [catch] block calls [logger.warn], and the error that
    call throws reaches the caller.  A warning that throws inside the [try]
    is caught, and the warning of the [catch] block throws in turn. *)
Lemma loadConfig_raises_with_throwing_logger :
  Raising.loadConfig invalidJsonProject "/proj" (Some throwingLogger) []
  = (Throw "logger down",
     ["Failed to load .ai-switch.json: Expected property name or '}' in JSON at position 1"])
  /\ Raising.loadConfig cursorProject "/proj" (Some throwingLogger) []
     = (Throw "logger down",
        ["Ignoring unknown defaultTool: cursor";
         "Failed to load .ai-switch.json: logger down"]).
Proof. split; reflexivity. Qed.

(** C4, amended.  With no logger, or with a logger whose [warn] returns
    normally, [loadConfig] returns normally.  Without a configuration file
    the result is the empty configuration and the logger is not called.
    When reading or parsing fails with the error text [e], the result is the
    empty configuration after one call of [logger?.warn] whose message
    contains ["Failed to load .ai-switch.json"] and [e]. *)
Theorem loadConfig_never_fatal_returning {World : Type}
  (h : Host) (cwd : string) (logger : option (Raising.LoggerLike World))
  (w : World) :
  Raising.returns logger ->
  (exists c w', Raising.loadConfig h cwd logger w = (Normal c, w'))
  /\ (fs_existsSync h (path_join h cwd CONFIG_FILENAME) = false ->
      Raising.loadConfig h cwd logger w = (Normal emptyConfig, w))
  /\ (forall e,
         fs_existsSync h (path_join h cwd CONFIG_FILENAME) = true ->
         fs_readFileSync h (path_join h cwd CONFIG_FILENAME) = Throw e
         \/ (exists raw,
                fs_readFileSync h (path_join h cwd CONFIG_FILENAME) = Normal raw
                /\ JSON_parse h raw = Throw e) ->
         exists message,
           Raising.loadConfig h cwd logger w
           = (Normal emptyConfig, snd (Raising.warn_opt logger message w))
           /\ includes message "Failed to load .ai-switch.json" = true
           /\ includes message e = true).
Proof.
  intros Hret. rewrite Raising_loadConfig_sink by exact Hret.
  destruct (loadConfig_never_fatal h cwd (option_map sinkOf logger) w)
    as (Hnormal & Hmissing & Hfail).
  split; [exact Hnormal | split; [exact Hmissing|]].
  intros e Hex Hcause.
  destruct (Hfail e Hex Hcause) as (message & Hrun & Hname & Htext).
  exists message. rewrite <- notify_sink. repeat split; assumption.
Qed.

Lemma loadConfig_never_fatal_returning_witness :
  (exists c w',
      Raising.loadConfig cursorProject "/proj" (Some recordingLogger) []
      = (Normal c, w'))
  /\ Raising.loadConfig emptyProject "/proj" (Some recordingLogger) []
     = (Normal emptyConfig, [])
  /\ exists message,
       Raising.loadConfig invalidJsonProject "/proj" (Some recordingLogger) []
       = (Normal emptyConfig, [message])
       /\ includes message "Failed to load .ai-switch.json" = true
       /\ includes message
            "Expected property name or '}' in JSON at position 1" = true.
Proof.
  split; [| split].
  - apply (loadConfig_never_fatal_returning
             cursorProject "/proj" (Some recordingLogger) []).
    intros message w. reflexivity.
  - apply (proj1 (proj2 (loadConfig_never_fatal_returning
                           emptyProject "/proj" (Some recordingLogger) []
                           (fun _ _ => eq_refl)))).
    reflexivity.
  - destruct (proj2 (proj2 (loadConfig_never_fatal_returning
                              invalidJsonProject "/proj" (Some recordingLogger)
                              [] (fun _ _ => eq_refl)))
                "Expected property name or '}' in JSON at position 1"
                eq_refl
                (or_intror (ex_intro _ "{invalid json" (conj eq_refl eq_refl))))
      as (message & Hrun & Hname & Htext).
    exists message. repeat split; assumption.
Defined.

(** A logger whose [warn] returns is used for nothing but the warnings: the
    configuration is the one returned to the recording logger, the state of
    the logger after the load is its state before with the recorded
    messages delivered in order, and there are at most two of them.
    Without a logger the state is left as it was. *)
Theorem loadConfig_returning_logger_parametric {World : Type}
  (h : Host) (cwd : string) (logger : option (Raising.LoggerLike World))
  (w : World) :
  Raising.returns logger ->
  Raising.loadConfig h cwd logger w
  = (fst (Raising.loadConfig h cwd (Some recordingLogger) []),
     Raising.deliverAll logger
       (snd (Raising.loadConfig h cwd (Some recordingLogger) [])) w)
  /\ length (snd (Raising.loadConfig h cwd (Some recordingLogger) [])) <= 2
  /\ snd (Raising.loadConfig h cwd (@None (Raising.LoggerLike World)) w) = w.
Proof.
  intros Hret.
  assert (Hrec : Raising.loadConfig h cwd (Some recordingLogger) []
                 = loadConfig h cwd (Some recorder) []).
  { rewrite Raising_loadConfig_sink by (intros m calls; reflexivity).
    reflexivity. }
  rewrite Hrec.
  destruct (loadConfig_via_recorder h cwd (option_map sinkOf logger) w)
    as (Hrun & Hlen & _).
  split; [| split; [exact Hlen|]].
  - rewrite Raising_loadConfig_sink by exact Hret.
    rewrite Hrun. now rewrite notifyAll_sink.
  - rewrite Raising_loadConfig_sink by exact I.
    destruct (loadConfig_via_recorder h cwd (@None (LoggerLike World)) w)
      as (Hnone & _ & Hsame).
    cbn [option_map]. rewrite Hnone. cbn [snd]. exact Hsame.
Qed.

Lemma loadConfig_returning_logger_parametric_witness :
  Raising.loadConfig numericToolProject "/proj" (Some countingLogger) 0
  = (fst (Raising.loadConfig numericToolProject "/proj"
            (Some recordingLogger) []),
     Raising.deliverAll (Some countingLogger)
       (snd (Raising.loadConfig numericToolProject "/proj"
               (Some recordingLogger) [])) 0)
  /\ length (snd (Raising.loadConfig numericToolProject "/proj"
                    (Some recordingLogger) [])) <= 2
  /\ snd (Raising.loadConfig numericToolProject "/proj"
            (@None (Raising.LoggerLike nat)) 0) = 0.
Proof.
  apply (loadConfig_returning_logger_parametric
           numericToolProject "/proj" (Some countingLogger) 0).
  intros message w. reflexivity.
Defined.

Example loadConfig_counting_logger :
  Raising.loadConfig cursorProject "/proj" (Some countingLogger) 0
  = (Normal {| defaultTool := None;
               defaultFlags := Some [VString "--model"; VString "claude-3"] |},
     1).
Proof. reflexivity. Qed.
